(** * The gRPC frame relay of the proxy ([pkg/core/proxy/integrations/grpc/frame.go])

    A shallow embedding of [transferFrame], [splitGrpcTrailerHeaders] and
    [extractHeaders], and the properties of the relay established on it.

    The relay reads HTTP/2 frames from one connection ([rhs]) and writes an
    equivalent frame to the other ([lhs]) through one [http2.Framer]; on the
    way it feeds header blocks and payloads to a [StreamInfoCollection].
    The embedding keeps the shape of the Go code:
    - Go maps are [gmap string string], with [None] for the nil map;
    - the frames are the structs of [golang.org/x/net/http2], flags being a
      bit set tested with [Z.land];
    - the loop threads a state (decoder, collection, destination connection)
      and returns early on an error, so it is written in a small state and
      early-return monad;
    - the context, the clock and the destination connection are oracles
      indexed by the loop iteration. *)

From Stdlib Require Import ZArith Ascii String List Bool Lia.
From Stdlib Require Import Strings.Byte.
From stdpp Require Import base option gmap strings list fin_maps.

Local Open Scope string_scope.
Local Open Scope Z_scope.

(** ** Errors *)

(** The two values [context.Context.Err] reports once the context is done. *)
Inductive ctx_error : Type := Canceled | DeadlineExceeded.

(** Go [error] values met by the relay.  [lib_error] stands for the errors
    of the network and of the [http2] and [hpack] packages.  [fmt_Errorf f e]
    is the value of [fmt.Errorf(f, e)] for a format [f] with a single [%v]
    verb. *)
Inductive error : Type :=
| io_EOF
| context_error (c : ctx_error)
| lib_error (code : nat)
| fmt_Errorf (format : string) (arg : error).

Definition is_io_EOF (e : error) : bool :=
  match e with io_EOF => true | _ => false end.

Definition is_context_error (e : error) : bool :=
  match e with context_error _ => true | _ => false end.

(** The errors [transferFrame] builds itself with [fmt.Errorf]: transport and
    decode failures. *)
Definition is_wrapped_error (e : error) : bool :=
  match e with fmt_Errorf _ _ => true | _ => false end.

(** ** Go maps *)

Abbreviation bytes := (list byte).

(** A [map[string]string] value: [None] is the nil map. *)
Abbreviation gomap := (option (gmap string string)).

(** The entries a [range] over the map visits; a nil map has none. *)
Definition entries (m : gomap) : gmap string string := default ∅ m.

(** [m[k] = v] on a map made with [make]; the made map starts as [∅]. *)
Definition map_assign (m : gmap string string) (k v : string) : gmap string string :=
  <[k := v]> m.

(** ** Trailer classification *)

(** [strings.HasPrefix(k, "grpc-")] *)
Definition is_grpc_key (k : string) : bool := String.prefix "grpc-" k.

(** One turn of the [range] loop of [splitGrpcTrailerHeaders]; the pair is
    [(normal, trailer)]. *)
Definition split_step (acc : gmap string string * gmap string string) (kv : string * string)
  : gmap string string * gmap string string :=
  let '(normal, trailer) := acc in
  let '(k, v) := kv in
  if is_grpc_key k then (normal, map_assign trailer k v)
  else (map_assign normal k v, trailer).

(** The loop run over the entries in a given visiting order.  Go leaves the
    order of a [range] over a map unspecified. *)
Definition split_loop (order : list (string * string))
  : gmap string string * gmap string string :=
  fold_left split_step order (∅, ∅).

Definition splitGrpcTrailerHeaders (hdrs : gomap) : gomap * gomap :=
  let '(normal, trailer) := split_loop (map_to_list (entries hdrs)) in
  (Some normal, Some trailer).

(** ** Header extraction *)

(** constants for dynamic table size *)
Definition KmaxDynamicTableSize : Z := 4096.

(** [hpack.HeaderField]; [Sensitive] plays no role in the relay. *)
Record HeaderField : Type := mkHeaderField {
  Name : string;
  Value : string;
  Sensitive : bool
}.

(** [len(name) != 0 && name[0] == ':'] *)
Definition pseudo_name (name : string) : bool :=
  match name with
  | String c _ => Ascii.eqb c ":"%char
  | EmptyString => false
  end.

(** [HeaderField.IsPseudo] *)
Definition IsPseudo (hf : HeaderField) : bool := pseudo_name (Name hf).

(** One turn of the loop of [extractHeaders] over the decoded fields; the
    pair is [(pseudoHeaders, ordinaryHeaders)]. *)
Definition extract_step (acc : gmap string string * gmap string string) (header : HeaderField)
  : gmap string string * gmap string string :=
  let '(pseudoHeaders, ordinaryHeaders) := acc in
  if IsPseudo header
  then (map_assign pseudoHeaders (Name header) (Value header), ordinaryHeaders)
  else (pseudoHeaders, map_assign ordinaryHeaders (Name header) (Value header)).

Definition extract_loop (hf : list HeaderField)
  : gmap string string * gmap string string :=
  fold_left extract_step hf (∅, ∅).

(** ** HTTP/2 frames ([golang.org/x/net/http2]) *)

(** [http2.FrameHeader].  The frame type is the constructor of [Frame] and
    the length is that of the payload; [Flags] is the 8-bit flag set. *)
Record FrameHeader : Type := mkFrameHeader {
  Flags : Z;
  StreamID : Z
}.

(** [Flags.Has] *)
Definition Has (f v : Z) : bool := Z.land f v =? v.

Definition FlagDataEndStream : Z := 0x1.
Definition FlagDataPadded : Z := 0x8.
Definition FlagHeadersEndStream : Z := 0x1.
Definition FlagHeadersEndHeaders : Z := 0x4.
Definition FlagHeadersPadded : Z := 0x8.
Definition FlagHeadersPriority : Z := 0x20.
Definition FlagSettingsAck : Z := 0x1.
Definition FlagPingAck : Z := 0x1.
Definition FlagContinuationEndHeaders : Z := 0x4.
Definition FlagPushPromiseEndHeaders : Z := 0x4.
Definition FlagPushPromisePadded : Z := 0x8.

Record Setting : Type := mkSetting { ID : Z; Val : Z }.

Record PriorityParam : Type := mkPriorityParam {
  StreamDep : Z;
  Exclusive : bool;
  Weight : Z
}.

(** [PriorityParam.IsZero] *)
Definition IsZero (p : PriorityParam) : bool :=
  (StreamDep p =? 0) && negb (Exclusive p) && (Weight p =? 0).

Record SettingsFrame : Type := mkSettingsFrame {
  sf_FrameHeader : FrameHeader;
  sf_p : list Setting
}.

Record HeadersFrame : Type := mkHeadersFrame {
  hf_FrameHeader : FrameHeader;
  hf_Priority : PriorityParam;
  hf_headerFragBuf : bytes
}.

Record DataFrame : Type := mkDataFrame {
  df_FrameHeader : FrameHeader;
  df_data : bytes
}.

Record PingFrame : Type := mkPingFrame {
  pf_FrameHeader : FrameHeader;
  pf_Data : bytes
}.

Record WindowUpdateFrame : Type := mkWindowUpdateFrame {
  wf_FrameHeader : FrameHeader;
  wf_Increment : Z
}.

Record ContinuationFrame : Type := mkContinuationFrame {
  cf_FrameHeader : FrameHeader;
  cf_headerFragBuf : bytes
}.

Record PriorityFrame : Type := mkPriorityFrame {
  prf_FrameHeader : FrameHeader;
  prf_PriorityParam : PriorityParam
}.

Record RSTStreamFrame : Type := mkRSTStreamFrame {
  rf_FrameHeader : FrameHeader;
  rf_ErrCode : Z
}.

Record GoAwayFrame : Type := mkGoAwayFrame {
  gf_FrameHeader : FrameHeader;
  gf_LastStreamID : Z;
  gf_ErrCode : Z;
  gf_debugData : bytes
}.

Record PushPromiseFrame : Type := mkPushPromiseFrame {
  ppf_FrameHeader : FrameHeader;
  ppf_PromiseID : Z;
  ppf_headerFragBuf : bytes
}.

Record UnknownFrame : Type := mkUnknownFrame {
  uf_FrameHeader : FrameHeader;
  uf_p : bytes
}.

(** The [http2.Frame] interface, as the dynamic types [Framer.ReadFrame]
    returns: the ten known frame types and [*UnknownFrame] for every other
    type byte. *)
Inductive Frame : Type :=
| FSettings (f : SettingsFrame)
| FHeaders (f : HeadersFrame)
| FData (f : DataFrame)
| FPing (f : PingFrame)
| FWindowUpdate (f : WindowUpdateFrame)
| FContinuation (f : ContinuationFrame)
| FPriority (f : PriorityFrame)
| FRSTStream (f : RSTStreamFrame)
| FGoAway (f : GoAwayFrame)
| FPushPromise (f : PushPromiseFrame)
| FUnknown (f : UnknownFrame).

Definition SettingsFrame_IsAck (f : SettingsFrame) : bool :=
  Has (Flags (sf_FrameHeader f)) FlagSettingsAck.

(** [SettingsFrame.ForeachSetting]: [fn] is run on each setting in turn and
    the first error stops the walk.  The variable the Go closure captures is
    passed through as [a]. *)
Fixpoint foreach_setting {A : Type} (p : list Setting)
    (fn : Setting -> A -> A * option error) (a : A) : A * option error :=
  match p with
  | [] => (a, None)
  | setting :: p' =>
      match fn setting a with
      | (a', None) => foreach_setting p' fn a'
      | (a', Some err) => (a', Some err)
      end
  end.

Definition ForeachSetting {A : Type} (f : SettingsFrame)
    (fn : Setting -> A -> A * option error) (a : A) : A * option error :=
  foreach_setting (sf_p f) fn a.

Definition HeadersFrame_StreamEnded (f : HeadersFrame) : bool :=
  Has (Flags (hf_FrameHeader f)) FlagHeadersEndStream.
Definition HeadersFrame_HeadersEnded (f : HeadersFrame) : bool :=
  Has (Flags (hf_FrameHeader f)) FlagHeadersEndHeaders.
Definition HeadersFrame_HeaderBlockFragment (f : HeadersFrame) : bytes :=
  hf_headerFragBuf f.

Definition DataFrame_StreamEnded (f : DataFrame) : bool :=
  Has (Flags (df_FrameHeader f)) FlagDataEndStream.
Definition DataFrame_Data (f : DataFrame) : bytes := df_data f.

Definition PingFrame_IsAck (f : PingFrame) : bool :=
  Has (Flags (pf_FrameHeader f)) FlagPingAck.

Definition ContinuationFrame_HeadersEnded (f : ContinuationFrame) : bool :=
  Has (Flags (cf_FrameHeader f)) FlagContinuationEndHeaders.
Definition ContinuationFrame_HeaderBlockFragment (f : ContinuationFrame) : bytes :=
  cf_headerFragBuf f.

Definition GoAwayFrame_DebugData (f : GoAwayFrame) : bytes := gf_debugData f.

Definition PushPromiseFrame_HeadersEnded (f : PushPromiseFrame) : bool :=
  Has (Flags (ppf_FrameHeader f)) FlagPushPromiseEndHeaders.
Definition PushPromiseFrame_HeaderBlockFragment (f : PushPromiseFrame) : bytes :=
  ppf_headerFragBuf f.

(** ** Writes on the framer *)

Record HeadersFrameParam : Type := mkHeadersFrameParam {
  hp_StreamID : Z;
  hp_BlockFragment : bytes;
  hp_EndStream : bool;
  hp_EndHeaders : bool;
  hp_PadLength : Z;
  hp_Priority : PriorityParam
}.

Record PushPromiseParam : Type := mkPushPromiseParam {
  pp_StreamID : Z;
  pp_PromiseID : Z;
  pp_BlockFragment : bytes;
  pp_EndHeaders : bool;
  pp_PadLength : Z
}.

(** The write methods of [http2.Framer] the relay calls, with their
    arguments. *)
Inductive WriteCall : Type :=
| WriteSettingsAck
| WriteSettings (settings : list Setting)
| WriteHeaders (p : HeadersFrameParam)
| WriteData (streamID : Z) (endStream : bool) (data : bytes)
| WritePing (ack : bool) (data : bytes)
| WriteWindowUpdate (streamID incr : Z)
| WriteContinuation (streamID : Z) (endHeaders : bool) (headerBlockFragment : bytes)
| WritePriority (streamID : Z) (p : PriorityParam)
| WriteRSTStream (streamID : Z) (code : Z)
| WriteGoAway (maxStreamID : Z) (code : Z) (debugData : bytes)
| WritePushPromise (p : PushPromiseParam).

(** What a peer reading the destination connection parses from what a write
    call put on it, after the encoding of [http2/frame.go]: the flags are
    built from the arguments, connection-level frames go out on stream 0 and
    [WriteGoAway] sends its first argument as the last-stream identifier. *)
Definition flag_if (b : bool) (flag : Z) : Z := if b then flag else 0.

Definition written_frame (c : WriteCall) : Frame :=
  match c with
  | WriteSettingsAck =>
      FSettings (mkSettingsFrame (mkFrameHeader FlagSettingsAck 0) [])
  | WriteSettings settings =>
      FSettings (mkSettingsFrame (mkFrameHeader 0 0) settings)
  | WriteHeaders p =>
      let flags :=
        Z.lor (Z.lor (flag_if (negb (hp_PadLength p =? 0)) FlagHeadersPadded)
                     (flag_if (hp_EndStream p) FlagHeadersEndStream))
              (Z.lor (flag_if (hp_EndHeaders p) FlagHeadersEndHeaders)
                     (flag_if (negb (IsZero (hp_Priority p))) FlagHeadersPriority)) in
      FHeaders (mkHeadersFrame (mkFrameHeader flags (hp_StreamID p))
                               (hp_Priority p) (hp_BlockFragment p))
  | WriteData streamID endStream data =>
      FData (mkDataFrame (mkFrameHeader (flag_if endStream FlagDataEndStream) streamID) data)
  | WritePing ack data =>
      FPing (mkPingFrame (mkFrameHeader (flag_if ack FlagPingAck) 0) data)
  | WriteWindowUpdate streamID incr =>
      FWindowUpdate (mkWindowUpdateFrame (mkFrameHeader 0 streamID) incr)
  | WriteContinuation streamID endHeaders frag =>
      FContinuation (mkContinuationFrame
        (mkFrameHeader (flag_if endHeaders FlagContinuationEndHeaders) streamID) frag)
  | WritePriority streamID p =>
      FPriority (mkPriorityFrame (mkFrameHeader 0 streamID) p)
  | WriteRSTStream streamID code =>
      FRSTStream (mkRSTStreamFrame (mkFrameHeader 0 streamID) code)
  | WriteGoAway maxStreamID code debugData =>
      FGoAway (mkGoAwayFrame (mkFrameHeader 0 0)
                             (Z.land maxStreamID 0x7fffffff) code debugData)
  | WritePushPromise p =>
      let flags :=
        Z.lor (flag_if (negb (pp_PadLength p =? 0)) FlagPushPromisePadded)
              (flag_if (pp_EndHeaders p) FlagPushPromiseEndHeaders) in
      FPushPromise (mkPushPromiseFrame (mkFrameHeader flags (pp_StreamID p))
                                       (pp_PromiseID p) (pp_BlockFragment p))
  end.

(** ** The stream store *)

(** The methods of [StreamInfoCollection] the relay calls.  Their bodies live
    in another file of the package; a call is recorded with its arguments.
    [PersistMockForStream] always receives the relay's own [ctx] and [mocks]. *)
Inductive SicCall : Type :=
| AddHeadersForRequest (streamID : Z) (hdrs : gomap) (isPseudo : bool)
| AddHeadersForResponse (streamID : Z) (hdrs : gomap) (isPseudo isTrailer : bool)
| AddPayloadForRequest (streamID : Z) (payload : bytes)
| AddPayloadForResponse (streamID : Z) (payload : bytes)
| PersistMockForStream (streamID : Z)
| ResetStream (streamID : Z).

(** The part of [StreamInfoCollection] the relay touches: the two exported
    timestamp fields it assigns, and the method calls it makes, oldest
    first.  A [time.Time] is a number. *)
Record StreamInfoCollection : Type := mkStreamInfoCollection {
  ReqTimestampMock : Z;
  ResTimestampMock : Z;
  calls : list SicCall
}.

(** ** The surroundings of one relay loop *)

(** [ctx_Done i] tells whether [ctx.Done()] is ready when iteration [i]
    reaches the [select]; [ctx_Err] is what [ctx.Err()] then returns;
    [time_Now i] is the reading of [time.Now()] in iteration [i];
    [conn_Write i] is the outcome of the write iteration [i] attempts on the
    destination connection ([None]: the frame went out). *)
Record World : Type := mkWorld {
  ctx_Done : nat -> bool;
  ctx_Err : ctx_error;
  time_Now : nat -> Z;
  conn_Write : nat -> option error
}.

(** ** A state monad with early return *)

Inductive outcome (A : Type) : Type :=
| Next (a : A)
| Return (err : error).
Arguments Next {A} a.
Arguments Return {A} err.

Definition M (S A : Type) : Type := S -> S * outcome A.

Definition ret {S A : Type} (a : A) : M S A := fun s => (s, Next a).

Definition return_err {S A : Type} (err : error) : M S A := fun s => (s, Return err).

Definition bind {S A B : Type} (m : M S A) (k : A -> M S B) : M S B :=
  fun s =>
    match m s with
    | (s', Next a) => k a s'
    | (s', Return err) => (s', Return err)
    end.

Declare Scope relay_scope.
Delimit Scope relay_scope with relay.
Notation "x <- c ;; k" := (bind c (fun x => k))
  (at level 100, c at next level, right associativity) : relay_scope.
Notation "c ;; k" := (bind c (fun _ => k))
  (at level 100, right associativity) : relay_scope.

(** [if err != nil { return fmt.Errorf(format, err) }] *)
Definition check {S : Type} (err : option error) (format : string) : M S unit :=
  match err with
  | Some e => return_err (fmt_Errorf format e)
  | None => ret tt
  end.

(** ** The relay *)

Section Relay.

(** [hpack.Decoder]: its state (the dynamic table) and [DecodeFull], which
    decodes one header block and moves the table on. *)
Variable Decoder : Type.
Variable DecodeFull : Decoder -> bytes -> Decoder * (list HeaderField + error).

(** What one loop owns or shares: its decoder, the collection, and the
    writes that went out on the destination connection, oldest first. *)
Record State : Type := mkState {
  decoder : Decoder;
  sic : StreamInfoCollection;
  lhs : list WriteCall
}.

Local Open Scope relay_scope.

(** [decoder.DecodeFull(p)] *)
Definition decoder_DecodeFull (p : bytes) : M State (list HeaderField + error) :=
  fun s =>
    let '(d, r) := DecodeFull (decoder s) p in
    (mkState d (sic s) (lhs s), Next r).

(** A method call on [sic]. *)
Definition sic_call (c : SicCall) : M State unit :=
  fun s =>
    let k := sic s in
    (mkState (decoder s)
             (mkStreamInfoCollection (ReqTimestampMock k) (ResTimestampMock k)
                                     (calls k ++ [c])%list)
             (lhs s),
     Next tt).

(** [sic.ReqTimestampMock = t] *)
Definition set_ReqTimestampMock (t : Z) : M State unit :=
  fun s =>
    let k := sic s in
    (mkState (decoder s)
             (mkStreamInfoCollection t (ResTimestampMock k) (calls k))
             (lhs s),
     Next tt).

(** [sic.ResTimestampMock = t] *)
Definition set_ResTimestampMock (t : Z) : M State unit :=
  fun s =>
    let k := sic s in
    (mkState (decoder s)
             (mkStreamInfoCollection (ReqTimestampMock k) t (calls k))
             (lhs s),
     Next tt).

Definition extractHeaders (frame : HeadersFrame)
  : M State (gomap * gomap * option error) :=
  r <- decoder_DecodeFull (HeadersFrame_HeaderBlockFragment frame) ;;
  match r with
  | inr err => ret (None, None, Some (fmt_Errorf "could not decode headers: %v" err))
  | inl hf =>
      let '(pseudoHeaders, ordinaryHeaders) := extract_loop hf in
      ret (Some pseudoHeaders, Some ordinaryHeaders, None)
  end.

Variable w : World.
Variable reqFromClient : bool.

Definition respFromServer : bool := negb reqFromClient.

(** A write of iteration [i] on the framer: it goes out whole or fails. *)
Definition framer_write (i : nat) (c : WriteCall) : M State (option error) :=
  fun s =>
    match conn_Write w i with
    | None => (mkState (decoder s) (sic s) (lhs s ++ [c])%list, Next None)
    | Some err => (s, Next (Some err))
    end.

(** The [case *http2.HeadersFrame] arm, after the frame went out. *)
Definition capture_headers (headersFrame : HeadersFrame) (streamID : Z)
    (pseudoHeaders ordinaryHeaders : gomap) : M State unit :=
  (if reqFromClient then
     sic_call (AddHeadersForRequest streamID pseudoHeaders true) ;;
     sic_call (AddHeadersForRequest streamID ordinaryHeaders false)
   else if respFromServer then
     if HeadersFrame_StreamEnded headersFrame then
       let '(pseudoNormal, pseudoTrailer) := splitGrpcTrailerHeaders pseudoHeaders in
       let '(ordinaryNormal, ordinaryTrailer) := splitGrpcTrailerHeaders ordinaryHeaders in
       sic_call (AddHeadersForResponse streamID pseudoNormal true false) ;;
       sic_call (AddHeadersForResponse streamID ordinaryNormal false false) ;;
       sic_call (AddHeadersForResponse streamID pseudoTrailer true true) ;;
       sic_call (AddHeadersForResponse streamID ordinaryTrailer false true)
     else
       sic_call (AddHeadersForResponse streamID pseudoHeaders true false) ;;
       sic_call (AddHeadersForResponse streamID ordinaryHeaders false false)
   else ret tt) ;;
  if respFromServer && HeadersFrame_StreamEnded headersFrame then
    sic_call (PersistMockForStream streamID) ;;
    sic_call (ResetStream streamID)
  else ret tt.

(** The [switch frame := frame.(type)] of iteration [i]: [Next tt] goes
    round the loop again, [Return err] leaves [transferFrame] with [err]. *)
Definition dispatch (i : nat) (frame : Frame) : M State unit :=
  match frame with
  | FSettings settingsFrame =>
      if SettingsFrame_IsAck settingsFrame then
        err <- framer_write i WriteSettingsAck ;;
        check err "could not write ack for settings frame: %v"
      else
        let '(settingsCollection, err) :=
          ForeachSetting settingsFrame
            (fun setting (settingsCollection : list Setting) =>
               ((settingsCollection ++ [setting])%list, None))
            [] in
        check err "could not read settings from settings frame: %v" ;;
        err <- framer_write i (WriteSettings settingsCollection) ;;
        check err "could not write settings fraame: %v"
  | FHeaders headersFrame =>
      let streamID := StreamID (hf_FrameHeader headersFrame) in
      err <- framer_write i (WriteHeaders {|
               hp_StreamID := streamID;
               hp_BlockFragment := HeadersFrame_HeaderBlockFragment headersFrame;
               hp_EndStream := HeadersFrame_StreamEnded headersFrame;
               hp_EndHeaders := HeadersFrame_HeadersEnded headersFrame;
               hp_PadLength := 0;
               hp_Priority := hf_Priority headersFrame |}) ;;
      check err "could not write headers frame: %v" ;;
      r <- extractHeaders headersFrame ;;
      let '(pseudoHeaders, ordinaryHeaders, err) := r in
      check err "could not extract headers from frame: %v" ;;
      capture_headers headersFrame streamID pseudoHeaders ordinaryHeaders
  | FData dataFrame =>
      err <- framer_write i (WriteData (StreamID (df_FrameHeader dataFrame))
                                       (DataFrame_StreamEnded dataFrame)
                                       (DataFrame_Data dataFrame)) ;;
      check err "could not write data frame: %v" ;;
      if reqFromClient then
        set_ReqTimestampMock (time_Now w i) ;;
        sic_call (AddPayloadForRequest (StreamID (df_FrameHeader dataFrame))
                                       (DataFrame_Data dataFrame))
      else if respFromServer then
        set_ResTimestampMock (time_Now w i) ;;
        sic_call (AddPayloadForResponse (StreamID (df_FrameHeader dataFrame))
                                        (DataFrame_Data dataFrame))
      else ret tt
  | FPing pingFrame =>
      err <- framer_write i (WritePing (PingFrame_IsAck pingFrame) (pf_Data pingFrame)) ;;
      check err "could not write ACK for ping: %v"
  | FWindowUpdate windowUpdateFrame =>
      err <- framer_write i (WriteWindowUpdate (StreamID (wf_FrameHeader windowUpdateFrame))
                                               (wf_Increment windowUpdateFrame)) ;;
      check err "could not write window tools frame: %v"
  | FContinuation continuationFrame =>
      err <- framer_write i
               (WriteContinuation (StreamID (cf_FrameHeader continuationFrame))
                                  (ContinuationFrame_HeadersEnded continuationFrame)
                                  (ContinuationFrame_HeaderBlockFragment continuationFrame)) ;;
      check err "could not write continuation frame: %v"
  | FPriority priorityFrame =>
      err <- framer_write i (WritePriority (StreamID (prf_FrameHeader priorityFrame))
                                           (prf_PriorityParam priorityFrame)) ;;
      check err "could not write priority frame: %v"
  | FRSTStream rstStreamFrame =>
      err <- framer_write i (WriteRSTStream (StreamID (rf_FrameHeader rstStreamFrame))
                                            (rf_ErrCode rstStreamFrame)) ;;
      check err "could not write reset stream frame: %v"
  | FGoAway goAwayFrame =>
      err <- framer_write i (WriteGoAway (StreamID (gf_FrameHeader goAwayFrame))
                                         (gf_ErrCode goAwayFrame)
                                         (GoAwayFrame_DebugData goAwayFrame)) ;;
      check err "could not write GoAway frame: %v"
  | FPushPromise pushPromiseFrame =>
      err <- framer_write i (WritePushPromise {|
               pp_StreamID := StreamID (ppf_FrameHeader pushPromiseFrame);
               pp_PromiseID := ppf_PromiseID pushPromiseFrame;
               pp_BlockFragment := PushPromiseFrame_HeaderBlockFragment pushPromiseFrame;
               pp_EndHeaders := PushPromiseFrame_HeadersEnded pushPromiseFrame;
               pp_PadLength := 0 |}) ;;
      check err "could not write PushPromise frame: %v"
  | FUnknown _ => ret tt
  end.

(** What [framer.ReadFrame()] will return, call after call, on the source
    connection; past the end the peer has closed and the read gives
    [io.EOF]. *)
Definition Source : Type := list (Frame + error).

(** The [if err != nil] block after [ReadFrame]. *)
Definition read_failed (err : error) : error :=
  if is_io_EOF err then err else fmt_Errorf "error reading frame %v" err.

(** The [for] loop from iteration [i] on.  The result is the final state,
    what is left unread on the source, and the error returned. *)
Fixpoint relay_loop (i : nat) (rhs : Source) (s : State) : State * Source * error :=
  if ctx_Done w i then (s, rhs, context_error (ctx_Err w))
  else
    match rhs with
    | [] => (s, [], read_failed io_EOF)
    | inr err :: rest => (s, rest, read_failed err)
    | inl frame :: rest =>
        match dispatch i frame s with
        | (s', Return err) => (s', rest, err)
        | (s', Next _) => relay_loop (S i) rest s'
        end
    end.

Definition transferFrame (rhs : Source) (s : State) : State * Source * error :=
  relay_loop 0 rhs s.

End Relay.

Arguments State Decoder : clear implicits.
Arguments mkState {Decoder} decoder sic lhs.
Arguments decoder {Decoder} s.
Arguments sic {Decoder} s.
Arguments lhs {Decoder} s.
Arguments sic_call {Decoder} c s.
Arguments set_ReqTimestampMock {Decoder} t s.
Arguments set_ResTimestampMock {Decoder} t s.
Arguments framer_write {Decoder} w i c s.
Arguments extractHeaders {Decoder} DecodeFull frame s.
Arguments capture_headers {Decoder} reqFromClient headersFrame streamID
  pseudoHeaders ordinaryHeaders s.
Arguments dispatch {Decoder} DecodeFull w reqFromClient i frame s.
Arguments Source : clear implicits.
Arguments relay_loop {Decoder} DecodeFull w reqFromClient i rhs s.
Arguments transferFrame {Decoder} DecodeFull w reqFromClient rhs s.

(** * Notions the properties are stated with *)

(** The value of the last field named [name] in a decoded block, if any. *)
Fixpoint last_value (hf : list HeaderField) (name : string) : option string :=
  match hf with
  | [] => None
  | header :: hf' =>
      match last_value hf' name with
      | Some v => Some v
      | None => if String.eqb (Name header) name then Some (Value header) else None
      end
  end.

(** The calls that emit the mock of a stream and clear its record. *)
Definition is_lifecycle_call (c : SicCall) : bool :=
  match c with
  | PersistMockForStream _ | ResetStream _ => true
  | _ => false
  end.

(** The stream a frame is seen to end: the frame is a Headers frame with the
    end-of-stream flag and the loop relays the responses. *)
Definition closes_stream (reqFromClient : bool) (frame : Frame) : option Z :=
  match frame with
  | FHeaders f =>
      if negb reqFromClient && HeadersFrame_StreamEnded f
      then Some (StreamID (hf_FrameHeader f))
      else None
  | _ => None
  end.

Definition is_data (frame : Frame) : bool :=
  match frame with FData _ => true | _ => false end.

Definition is_next {A : Type} (o : outcome A) : bool :=
  match o with Next _ => true | Return _ => false end.

(** The timestamp field a loop assigns: the request one when it relays the
    requests, the response one otherwise. *)
Definition timestamp_of (reqFromClient : bool) (k : StreamInfoCollection) : Z :=
  if reqFromClient then ReqTimestampMock k else ResTimestampMock k.

(** The reading of the clock at the first Data frame of stream [id] among
    the frames relayed from iteration [i] on. *)
Fixpoint first_data_time (w : World) (id : Z) (i : nat) (frames : list Frame) : option Z :=
  match frames with
  | [] => None
  | frame :: rest =>
      match frame with
      | FData f =>
          if StreamID (df_FrameHeader f) =? id then Some (time_Now w i)
          else first_data_time w id (S i) rest
      | _ => first_data_time w id (S i) rest
      end
  end.

(** The reading of the clock at the last Data frame, of any stream, among
    the frames relayed from iteration [i] on. *)
Fixpoint last_data_time (w : World) (i : nat) (frames : list Frame) : option Z :=
  match frames with
  | [] => None
  | frame :: rest =>
      match last_data_time w (S i) rest with
      | Some t => Some t
      | None => if is_data frame then Some (time_Now w i) else None
      end
  end.

(** First-frame stamping, as a property of one run over [frames]: for every
    stream with a Data frame in the run, the timestamp of the direction ends
    as the time of the first Data frame of that stream. *)
Definition stamps_first_data_frame {Decoder : Type}
    (DecodeFull : Decoder -> bytes -> Decoder * (list HeaderField + error))
    (w : World) (reqFromClient : bool) (frames : list Frame) (s : State Decoder) : Prop :=
  forall (id t : Z),
    first_data_time w id 0 frames = Some t ->
    timestamp_of reqFromClient
      (sic (transferFrame DecodeFull w reqFromClient (map inl frames) s).1.1) = t.

(** The flags a faithful relay carries over, by frame type: end-stream,
    end-headers and ack, read off the frame by its own methods. *)
Definition kept_flags (frame : Frame) : Z :=
  match frame with
  | FSettings f => flag_if (SettingsFrame_IsAck f) FlagSettingsAck
  | FHeaders f =>
      Z.lor (flag_if (HeadersFrame_StreamEnded f) FlagHeadersEndStream)
            (flag_if (HeadersFrame_HeadersEnded f) FlagHeadersEndHeaders)
  | FData f => flag_if (DataFrame_StreamEnded f) FlagDataEndStream
  | FPing f => flag_if (PingFrame_IsAck f) FlagPingAck
  | FContinuation f =>
      flag_if (ContinuationFrame_HeadersEnded f) FlagContinuationEndHeaders
  | FPushPromise f =>
      flag_if (PushPromiseFrame_HeadersEnded f) FlagPushPromiseEndHeaders
  | _ => 0
  end.

Definition set_flags (flags : Z) (frame : Frame) : Frame :=
  let hdr := fun h => mkFrameHeader flags (StreamID h) in
  match frame with
  | FSettings f => FSettings (mkSettingsFrame (hdr (sf_FrameHeader f)) (sf_p f))
  | FHeaders f =>
      FHeaders (mkHeadersFrame (hdr (hf_FrameHeader f)) (hf_Priority f) (hf_headerFragBuf f))
  | FData f => FData (mkDataFrame (hdr (df_FrameHeader f)) (df_data f))
  | FPing f => FPing (mkPingFrame (hdr (pf_FrameHeader f)) (pf_Data f))
  | FWindowUpdate f =>
      FWindowUpdate (mkWindowUpdateFrame (hdr (wf_FrameHeader f)) (wf_Increment f))
  | FContinuation f =>
      FContinuation (mkContinuationFrame (hdr (cf_FrameHeader f)) (cf_headerFragBuf f))
  | FPriority f =>
      FPriority (mkPriorityFrame (hdr (prf_FrameHeader f)) (prf_PriorityParam f))
  | FRSTStream f => FRSTStream (mkRSTStreamFrame (hdr (rf_FrameHeader f)) (rf_ErrCode f))
  | FGoAway f =>
      FGoAway (mkGoAwayFrame (hdr (gf_FrameHeader f)) (gf_LastStreamID f)
                             (gf_ErrCode f) (gf_debugData f))
  | FPushPromise f =>
      FPushPromise (mkPushPromiseFrame (hdr (ppf_FrameHeader f)) (ppf_PromiseID f)
                                       (ppf_headerFragBuf f))
  | FUnknown f => FUnknown (mkUnknownFrame (hdr (uf_FrameHeader f)) (uf_p f))
  end.

(** The fields of a frame that frame fidelity is about: its type, its stream
    identifier, the flags above and its payload or parameters; the padding
    and the other flag bits are left out. *)
Definition fields (frame : Frame) : Frame := set_flags (kept_flags frame) frame.

(** The frames [ReadFrame] can return: its parsers refuse a Settings, Ping
    or GoAway frame on a stream other than 0, a settings acknowledgment with
    a payload, and a Data, Headers, Priority, RSTStream, Continuation or
    PushPromise frame on stream 0; a last-stream identifier has 31 bits. *)
Definition readable (frame : Frame) : bool :=
  match frame with
  | FSettings f =>
      (StreamID (sf_FrameHeader f) =? 0)
      && (negb (SettingsFrame_IsAck f) || (length (sf_p f) =? 0)%nat)
  | FPing f => StreamID (pf_FrameHeader f) =? 0
  | FGoAway f =>
      (StreamID (gf_FrameHeader f) =? 0)
      && (Z.land (gf_LastStreamID f) 0x7fffffff =? gf_LastStreamID f)
  | FHeaders f => negb (StreamID (hf_FrameHeader f) =? 0)
  | FData f => negb (StreamID (df_FrameHeader f) =? 0)
  | FContinuation f => negb (StreamID (cf_FrameHeader f) =? 0)
  | FPriority f => negb (StreamID (prf_FrameHeader f) =? 0)
  | FRSTStream f => negb (StreamID (rf_FrameHeader f) =? 0)
  | FPushPromise f => negb (StreamID (ppf_FrameHeader f) =? 0)
  | FWindowUpdate _ | FUnknown _ => true
  end.

(** The frame types the [switch] forwards with one write of the same kind
    and the same arguments, GoAway left aside. *)
Definition plainly_forwarded (frame : Frame) : bool :=
  match frame with
  | FGoAway _ | FUnknown _ => false
  | _ => true
  end.

(** ** Notions for whole runs *)

Definition is_headers (frame : Frame) : bool :=
  match frame with FHeaders _ => true | _ => false end.

(** The frame types the [switch] has a case for. *)
Definition is_known (frame : Frame) : bool :=
  match frame with FUnknown _ => false | _ => true end.

Definition is_goaway (frame : Frame) : bool :=
  match frame with FGoAway _ => true | _ => false end.

(** The decoder once a frame has gone out: a Headers frame hands its
    fragment to [DecodeFull], no other frame reaches the decoder. *)
Definition decoder_after {Decoder : Type}
    (DecodeFull : Decoder -> bytes -> Decoder * (list HeaderField + error))
    (frame : Frame) (d : Decoder) : Decoder :=
  match frame with
  | FHeaders f => (DecodeFull d (HeadersFrame_HeaderBlockFragment f)).1
  | _ => d
  end.

(** The calls that emit and clear, for a frame handled to the end. *)
Definition lifecycle_of (reqFromClient : bool) (frame : Frame) : list SicCall :=
  match closes_stream reqFromClient frame with
  | Some streamID => [PersistMockForStream streamID; ResetStream streamID]
  | None => []
  end.

Definition is_payload_call (c : SicCall) : bool :=
  match c with
  | AddPayloadForRequest _ _ | AddPayloadForResponse _ _ => true
  | _ => false
  end.

(** The payload call of a Data frame handled to the end. *)
Definition payload_of (reqFromClient : bool) (frame : Frame) : list SicCall :=
  match frame with
  | FData f =>
      [if reqFromClient
       then AddPayloadForRequest (StreamID (df_FrameHeader f)) (DataFrame_Data f)
       else AddPayloadForResponse (StreamID (df_FrameHeader f)) (DataFrame_Data f)]
  | _ => []
  end.

(** The fields expected on the destination for a frame read: none for a
    frame the [switch] drops. *)
Definition forwarded_fields (frame : Frame) : list Frame :=
  if is_known frame then [fields frame] else [].

(** ** Sample surroundings *)

(** A small decoder, a quiet world and an empty state on which the general
    statements below are run.  The decoder reads a block made only of HPACK
    indexed fields (RFC 7541, 6.1): one byte [0x80 + index] per field, the
    index naming an entry of the static table or, from 62 on, of the
    dynamic table, which is the decoder's state. *)
Module Sample.

Definition static_entry (index : Z) : option HeaderField :=
  if index =? 2 then Some (mkHeaderField ":method" "GET" false)
  else if index =? 3 then Some (mkHeaderField ":method" "POST" false)
  else if index =? 4 then Some (mkHeaderField ":path" "/" false)
  else if index =? 8 then Some (mkHeaderField ":status" "200" false)
  else if index =? 31 then Some (mkHeaderField "content-type" "" false)
  else None.

Definition entry (table : list HeaderField) (index : Z) : option HeaderField :=
  match static_entry index with
  | Some header => Some header
  | None => if 62 <=? index then nth_error table (Z.to_nat (index - 62)) else None
  end.

Fixpoint decode (table : list HeaderField) (p : bytes) : list HeaderField + error :=
  match p with
  | [] => inl []
  | b :: p' =>
      let n := Z.of_N (Byte.to_N b) in
      if 128 <=? n then
        match entry table (n - 128) with
        | Some header =>
            match decode table p' with
            | inl hf => inl (header :: hf)
            | inr err => inr err
            end
        | None => inr (lib_error 1)
        end
      else inr (lib_error 2)
  end.

Definition DecodeFull (table : list HeaderField) (p : bytes)
  : list HeaderField * (list HeaderField + error) :=
  (table, decode table p).

(** The dynamic table of the examples: entries 62 and 63. *)
Definition table : list HeaderField :=
  [mkHeaderField "grpc-status" "0" false; mkHeaderField "te" "trailers" false].

(** The context is never done, every write goes out, and the clock reads
    10, 20, 30, ... in iterations 0, 1, 2, ... *)
Definition quiet : World :=
  mkWorld (fun _ => false) Canceled (fun i => 10 * (Z.of_nat i + 1)) (fun _ => None).

(** The context is cancelled from iteration [n] on. *)
Definition cancelled_at (n : nat) : World :=
  mkWorld (fun i => n <=? i)%nat Canceled (time_Now quiet) (conn_Write quiet).

(** The write of iteration [n] fails. *)
Definition write_fails_at (n : nat) : World :=
  mkWorld (ctx_Done quiet) (ctx_Err quiet) (time_Now quiet)
          (fun i => if (i =? n)%nat then Some (lib_error 3) else None).

Definition init : State (list HeaderField) :=
  mkState table (mkStreamInfoCollection 0 0 []) [].

Definition data (streamID : Z) (endStream : bool) (payload : bytes) : Frame :=
  FData (mkDataFrame (mkFrameHeader (flag_if endStream FlagDataEndStream) streamID) payload).

Definition headers (streamID : Z) (endStream : bool) (fragment : bytes) : Frame :=
  FHeaders (mkHeadersFrame
    (mkFrameHeader (Z.lor FlagHeadersEndHeaders (flag_if endStream FlagHeadersEndStream))
                   streamID)
    (mkPriorityParam 0 false 0) fragment).

End Sample.

(** A decoder that also counts the header blocks it was handed: its state is
    that count, and it decodes as the sample decoder does. *)
Module Counting.

Definition DecodeFull (n : nat) (p : bytes) : nat * (list HeaderField + error) :=
  (S n, Sample.decode Sample.table p).

Definition init : State nat :=
  mkState 0%nat (mkStreamInfoCollection 0 0 []) [].

End Counting.

(** ** Proof steps *)

(** Unfold one turn of the loop down to the state it builds, and split on
    every test it makes. *)
Ltac relay_unfold :=
  unfold dispatch, capture_headers, extractHeaders, decoder_DecodeFull,
    framer_write, sic_call, set_ReqTimestampMock, set_ResTimestampMock,
    check, bind, ret, return_err, respFromServer, ForeachSetting in *.

Ltac relay_split H :=
  try match type of H with
      | context [SettingsFrame_IsAck ?f] => destruct (SettingsFrame_IsAck f) eqn:?
      end;
  try match type of H with
      | context [foreach_setting ?p ?fn ?a] =>
          destruct (foreach_setting p fn a) as [? [?|]] eqn:?
      end;
  try match type of H with
      | context [conn_Write ?w ?i] => destruct (conn_Write w i) eqn:?
      end;
  try match type of H with
      | context [match ?f (decoder ?s) ?p with _ => _ end] =>
          destruct (f (decoder s) p) as [? [?|?]] eqn:?
      end;
  try match type of H with
      | context [extract_loop ?hf] => destruct (extract_loop hf) eqn:?
      end;
  try match type of H with
      | context [if ?b then _ else _] => is_var b; destruct b
      end;
  try match type of H with
      | context [HeadersFrame_StreamEnded ?f] =>
          destruct (HeadersFrame_StreamEnded f) eqn:?
      end;
  repeat match type of H with
      | context [splitGrpcTrailerHeaders ?m] =>
          destruct (splitGrpcTrailerHeaders m) eqn:?
      end;
  injection H as ? ?; simplify_eq.

(** * Properties *)

(** ** Trailer classification *)

Section SplitFacts.

Implicit Types (order : list (string * string)) (normal trailer m : gmap string string).

(** The loop started from any pair of maps: a key goes to its side, and the
    latest entry visited for a key is the one kept. *)
Lemma split_fold_lookup order normal trailer normal' trailer' :
  fold_left split_step order (normal, trailer) = (normal', trailer') ->
  forall k,
    trailer' !! k =
      (if is_grpc_key k then (list_to_map (reverse order) ∪ trailer) !! k
       else trailer !! k)
    /\ normal' !! k =
      (if is_grpc_key k then normal !! k
       else (list_to_map (reverse order) ∪ normal) !! k).
Proof.
  revert normal trailer.
  induction order as [|[k0 v0] order IH]; intros normal trailer Hfold k.
  - cbn in Hfold. injection Hfold as <- <-.
    rewrite reverse_nil. cbn [list_to_map foldr].
    rewrite !(left_id_L ∅ (∪)). by destruct (is_grpc_key k).
  - cbn [fold_left split_step] in Hfold.
    rewrite reverse_cons, list_to_map_app, list_to_map_cons, list_to_map_nil.
    rewrite <- !(assoc_L (∪)), <- !insert_union_l, !(left_id_L ∅ (∪)).
    destruct (is_grpc_key k0) eqn:Hk0.
    + destruct (IH _ _ Hfold k) as [Ht Hn]. unfold map_assign in *.
      rewrite Ht, Hn. destruct (is_grpc_key k) eqn:Hk; [done|].
      split; [|rewrite !lookup_union].
      * apply lookup_insert_ne. congruence.
      * f_equal. symmetry. apply lookup_insert_ne. congruence.
    + destruct (IH _ _ Hfold k) as [Ht Hn]. unfold map_assign in *.
      rewrite Ht, Hn. destruct (is_grpc_key k) eqn:Hk; [|done].
      split; [rewrite !lookup_union|].
      * f_equal. symmetry. apply lookup_insert_ne. congruence.
      * apply lookup_insert_ne. congruence.
Qed.

(** Whatever order the [range] visits the entries in, the two maps are the
    same. *)
Lemma split_loop_lookup m order normal trailer :
  order ≡ₚ map_to_list m ->
  split_loop order = (normal, trailer) ->
  forall k,
    trailer !! k = (if is_grpc_key k then m !! k else None)
    /\ normal !! k = (if is_grpc_key k then None else m !! k).
Proof.
  intros Hperm Hloop k.
  destruct (split_fold_lookup _ _ _ _ _ Hloop k) as [Ht Hn].
  rewrite !(right_id_L ∅ (∪)), lookup_empty in Ht, Hn.
  assert (list_to_map (reverse order) = m) as Hm.
  { rewrite <- (list_to_map_to_list m). apply list_to_map_proper.
    - rewrite reverse_Permutation, Hperm. apply NoDup_fst_map_to_list.
    - by rewrite reverse_Permutation. }
  by rewrite Hm in Ht, Hn.
Qed.

Lemma split_loop_order_irrelevant m order :
  order ≡ₚ map_to_list m -> split_loop order = split_loop (map_to_list m).
Proof.
  intros Hperm.
  destruct (split_loop order) as [n1 t1] eqn:H1.
  destruct (split_loop (map_to_list m)) as [n2 t2] eqn:H2.
  f_equal; apply map_eq; intros k.
  - destruct (split_loop_lookup m _ _ _ Hperm H1 k) as [_ ->].
    by destruct (split_loop_lookup m _ _ _ (reflexivity _) H2 k) as [_ ->].
  - destruct (split_loop_lookup m _ _ _ Hperm H1 k) as [-> _].
    by destruct (split_loop_lookup m _ _ _ (reflexivity _) H2 k) as [-> _].
Qed.

End SplitFacts.

(** C2. For every header map, nil included, [splitGrpcTrailerHeaders]
    returns two made maps [normal] and [trailer]: a key with the ["grpc-"]
    prefix has its value in [trailer] and is absent from [normal], any other
    key has its value in [normal] and is absent from [trailer], the two maps
    are disjoint and their union is the input. *)
Theorem splitGrpcTrailerHeaders_partition (hdrs : gomap) :
  exists normal trailer : gmap string string,
    splitGrpcTrailerHeaders hdrs = (Some normal, Some trailer)
    /\ (forall k, trailer !! k = if is_grpc_key k then entries hdrs !! k else None)
    /\ (forall k, normal !! k = if is_grpc_key k then None else entries hdrs !! k)
    /\ normal ##ₘ trailer
    /\ normal ∪ trailer = entries hdrs.
Proof.
  unfold splitGrpcTrailerHeaders.
  destruct (split_loop (map_to_list (entries hdrs))) as [normal trailer] eqn:Hloop.
  exists normal, trailer.
  pose proof (split_loop_lookup (entries hdrs) _ _ _ (reflexivity _) Hloop) as Hk.
  split; [done|]. split; [intros k; apply Hk|]. split; [intros k; apply Hk|].
  split.
  - apply map_disjoint_alt. intros k. destruct (Hk k) as [Ht Hn].
    destruct (is_grpc_key k); auto.
  - apply map_eq. intros k. rewrite lookup_union.
    destruct (Hk k) as [-> ->].
    destruct (is_grpc_key k); by destruct (entries hdrs !! k).
Qed.

(** ** Header extraction *)

Lemma extract_fold_lookup (hf : list HeaderField) :
  forall pseudo ordinary pseudo' ordinary' : gmap string string,
    fold_left extract_step hf (pseudo, ordinary) = (pseudo', ordinary') ->
    forall name,
      pseudo' !! name =
        (if pseudo_name name then from_option Some (pseudo !! name) (last_value hf name)
         else pseudo !! name)
      /\ ordinary' !! name =
        (if pseudo_name name then ordinary !! name
         else from_option Some (ordinary !! name) (last_value hf name)).
Proof.
  induction hf as [|header hf IH]; intros pseudo ordinary pseudo' ordinary' Hfold name.
  - cbn in Hfold. injection Hfold as <- <-. cbn. by destruct (pseudo_name name).
  - cbn [fold_left extract_step] in Hfold. cbn [last_value].
    unfold IsPseudo, map_assign in Hfold.
    destruct (pseudo_name (Name header)) eqn:Hps;
      destruct (IH _ _ _ _ Hfold name) as [-> ->];
      destruct (last_value hf name) as [v|]; cbn [from_option]; try done;
      destruct (String.eqb_spec (Name header) name) as [<-|Hne];
      rewrite ?Hps; cbn [from_option];
      rewrite ?lookup_insert_eq, ?(lookup_insert_ne _ _ _ _ Hne); done.
Qed.

(** Every decoded field has a last value under its name. *)
Lemma last_value_of_field (hf : list HeaderField) (header : HeaderField) :
  header ∈ hf -> is_Some (last_value hf (Name header)).
Proof.
  induction hf as [|header' hf IH]; intros Hin; [by apply elem_of_nil in Hin|].
  cbn. apply elem_of_cons in Hin as [<-|Hin].
  - destruct (last_value hf (Name header)); [done|]. by rewrite String.eqb_refl.
  - destruct (IH Hin) as [v ->]. done.
Qed.

Section ExtractFacts.

Variable Decoder : Type.
Variable DecodeFull : Decoder -> bytes -> Decoder * (list HeaderField + error).

(** C6. [extractHeaders] hands the fragment of the frame to the decoder.
    When the decoder returns the fields [hf], the result is two made maps
    and a nil error: a pseudo name is bound in the pseudo map, any other
    name in the ordinary map, never in both, and each to the value of its
    last field in [hf]; so every field of [hf] has its name bound in the map
    of its kind and in that one only.  When the decoder fails with [err], the result is
    two nil maps and the error [could not decode headers: err]. *)
Theorem extractHeaders_partition (frame : HeadersFrame) (s : State Decoder) :
  let '(d, r) := DecodeFull (decoder s) (HeadersFrame_HeaderBlockFragment frame) in
  match r with
  | inl hf =>
      exists pseudoHeaders ordinaryHeaders : gmap string string,
        extractHeaders DecodeFull frame s =
          (mkState d (sic s) (lhs s),
           Next (Some pseudoHeaders, Some ordinaryHeaders, None))
        /\ (forall name, pseudoHeaders !! name =
               if pseudo_name name then last_value hf name else None)
        /\ (forall name, ordinaryHeaders !! name =
               if pseudo_name name then None else last_value hf name)
        /\ Forall (fun header =>
                     is_Some ((if IsPseudo header then pseudoHeaders
                               else ordinaryHeaders) !! Name header)
                     /\ (if IsPseudo header then ordinaryHeaders
                         else pseudoHeaders) !! Name header = None) hf
  | inr err =>
      extractHeaders DecodeFull frame s =
        (mkState d (sic s) (lhs s),
         Next (None, None, Some (fmt_Errorf "could not decode headers: %v" err)))
  end.
Proof.
  unfold extractHeaders, bind, decoder_DecodeFull.
  destruct (DecodeFull (decoder s) (HeadersFrame_HeaderBlockFragment frame))
    as [d [hf|err]]; [|reflexivity].
  destruct (extract_loop hf) as [pseudoHeaders ordinaryHeaders] eqn:Hloop.
  exists pseudoHeaders, ordinaryHeaders. split; [reflexivity|].
  assert (forall name,
            pseudoHeaders !! name = (if pseudo_name name then last_value hf name else None)
            /\ ordinaryHeaders !! name =
                 (if pseudo_name name then None else last_value hf name)) as Hmaps.
  { intros name.
    destruct (extract_fold_lookup hf _ _ _ _ Hloop name) as [-> ->].
    rewrite lookup_empty.
    destruct (pseudo_name name); by destruct (last_value hf name). }
  split; [intros name; apply Hmaps|]. split; [intros name; apply Hmaps|].
  apply Forall_forall. intros header Hin.
  destruct (Hmaps (Name header)) as [Hp Ho].
  pose proof (last_value_of_field hf header Hin) as Hsome.
  unfold IsPseudo. destruct (pseudo_name (Name header)); by rewrite Hp, Ho.
Qed.

End ExtractFacts.

Example sample_decode_request :
  Sample.decode Sample.table [x83; x84] =
    inl [mkHeaderField ":method" "POST" false; mkHeaderField ":path" "/" false].
Proof. reflexivity. Qed.

Example sample_decode_trailer :
  Sample.decode Sample.table [xbe] = inl [mkHeaderField "grpc-status" "0" false].
Proof. reflexivity. Qed.

Example sample_decode_failure : Sample.decode Sample.table [x00] = inr (lib_error 2).
Proof. reflexivity. Qed.

(** ** The relay loop *)

Lemma foreach_setting_collects (p acc : list Setting) :
  foreach_setting p
    (fun setting (settingsCollection : list Setting) =>
       ((settingsCollection ++ [setting])%list, @None error)) acc
  = ((acc ++ p)%list, None).
Proof.
  revert acc. induction p as [|setting p IH]; intros acc; cbn.
  - by rewrite app_nil_r.
  - rewrite IH. by rewrite <- app_assoc.
Qed.

Section RelayFacts.

Variable Decoder : Type.
Variable DecodeFull : Decoder -> bytes -> Decoder * (list HeaderField + error).
Variable w : World.
Variable reqFromClient : bool.

(** C7. A Settings frame with the ack flag is forwarded as a settings
    acknowledgment; any other Settings frame is forwarded by one
    [WriteSettings] carrying the settings of the frame, in their order and
    with their values.  Nothing else changes.  When the write fails the
    relay returns the wrapped error instead. *)
Theorem settings_relayed (i : nat) (settingsFrame : SettingsFrame) (s : State Decoder) :
  dispatch DecodeFull w reqFromClient i (FSettings settingsFrame) s =
    match conn_Write w i with
    | None =>
        (mkState (decoder s) (sic s)
           (lhs s ++ [if SettingsFrame_IsAck settingsFrame then WriteSettingsAck
                      else WriteSettings (sf_p settingsFrame)]),
         Next tt)
    | Some err =>
        (s, Return (fmt_Errorf
                      (if SettingsFrame_IsAck settingsFrame
                       then "could not write ack for settings frame: %v"
                       else "could not write settings fraame: %v") err))
    end.
Proof.
  unfold dispatch, ForeachSetting.
  rewrite foreach_setting_collects.
  destruct (SettingsFrame_IsAck settingsFrame);
    unfold bind, framer_write, check, ret, return_err;
    by destruct (conn_Write w i).
Qed.

(** C9. A frame of a type outside the ten the [switch] names is read and
    dropped: handling it changes nothing (no write, no call on the
    collection, no timestamp) and gives no error, and the loop goes on with
    the next read. *)
Theorem unknown_frame_dropped (i : nat) (f : UnknownFrame) (rest : Source)
    (s : State Decoder) :
  ctx_Done w i = false ->
  dispatch DecodeFull w reqFromClient i (FUnknown f) s = (s, Next tt)
  /\ relay_loop DecodeFull w reqFromClient i (inl (FUnknown f) :: rest) s
     = relay_loop DecodeFull w reqFromClient (S i) rest s.
Proof.
  intros Hctx. split; [reflexivity|]. cbn. by rewrite Hctx.
Qed.

(** C4. When the read fails, the loop stops there: the state is as it was
    (nothing more is written), what follows on the source stays unread, and
    the error returned is [io.EOF] itself when the read gave [io.EOF], and
    otherwise the wrapped [error reading frame err], which is not
    [io.EOF].  A closed source reads as [io.EOF]. *)
Theorem read_error_returned (i : nat) (err : error) (rest : Source) (s : State Decoder) :
  ctx_Done w i = false ->
  relay_loop DecodeFull w reqFromClient i (inr err :: rest) s =
    (s, rest,
     match err with
     | io_EOF => io_EOF
     | _ => fmt_Errorf "error reading frame %v" err
     end)
  /\ is_io_EOF (read_failed err) = is_io_EOF err
  /\ relay_loop DecodeFull w reqFromClient i [] s = (s, [], io_EOF).
Proof.
  intros Hctx. cbn. rewrite Hctx. by destruct err.
Qed.

(** Every error the [switch] returns is one the relay wrapped itself. *)
Lemma dispatch_error_wrapped (i : nat) (frame : Frame) (s s' : State Decoder) (err : error) :
  dispatch DecodeFull w reqFromClient i frame s = (s', Return err) ->
  is_wrapped_error err = true.
Proof.
  intros Hd. destruct frame; relay_unfold; relay_split Hd; reflexivity.
Qed.

(** The loop only ever returns the context's error, [io.EOF], or an error
    it wrapped; and it returns the context's error only when it found the
    context done. *)
Lemma relay_loop_error_kinds (rhs : Source) :
  forall (i : nat) (s s' : State Decoder) (rest : Source) (err : error),
    relay_loop DecodeFull w reqFromClient i rhs s = (s', rest, err) ->
    (err = context_error (ctx_Err w) /\ exists j, (i <= j)%nat /\ ctx_Done w j = true)
    \/ err = io_EOF
    \/ is_wrapped_error err = true.
Proof.
  induction rhs as [|[frame|e] rhs IH]; intros i s s' rest err Hloop;
    cbn in Hloop; destruct (ctx_Done w i) eqn:Hctx;
    try (injection Hloop as <- <- <-; left; split; [done|]; by exists i).
  - injection Hloop as <- <- <-. by right; left.
  - destruct (dispatch DecodeFull w reqFromClient i frame s) as [s1 [[]|e]] eqn:Hd.
    + destruct (IH _ _ _ _ _ Hloop) as [[-> (j & Hj & Hdone)]|H]; [|by right].
      left. split; [done|]. exists j. split; [lia|done].
    + injection Hloop as <- <- <-. right; right.
      by eapply dispatch_error_wrapped.
  - injection Hloop as <- <- <-. right. by destruct e; [left|right..].
Qed.

(** C8. When the context is done as an iteration begins, the loop returns
    [ctx.Err()] at once: the state is as it was (nothing is forwarded) and
    the source is as it was (nothing is read).  That error is neither
    [io.EOF] nor an error the relay wraps for a transport or decode
    failure, and in any run it is returned only on finding the context
    done. *)
Theorem cancellation_returned (i : nat) (rhs : Source) (s : State Decoder) :
  ctx_Done w i = true ->
  relay_loop DecodeFull w reqFromClient i rhs s = (s, rhs, context_error (ctx_Err w))
  /\ is_io_EOF (context_error (ctx_Err w)) = false
  /\ is_wrapped_error (context_error (ctx_Err w)) = false
  /\ (forall (j : nat) (rhs' rest : Source) (s1 s2 : State Decoder) (err : error),
        relay_loop DecodeFull w reqFromClient j rhs' s1 = (s2, rest, err) ->
        is_context_error err = true ->
        exists k, (j <= k)%nat /\ ctx_Done w k = true).
Proof.
  intros Hctx. repeat split.
  - destruct rhs; cbn; by rewrite Hctx.
  - intros j rhs' rest s1 s2 err Hloop Herr.
    destruct (relay_loop_error_kinds _ _ _ _ _ _ Hloop) as [[_ H]|[->| H]];
      [done|done|by destruct err].
Qed.

(** C1. The calls one frame adds to the collection are capture calls,
    none of them [PersistMockForStream] or [ResetStream], followed by
    [PersistMockForStream id; ResetStream id] exactly when the loop relays
    the responses, the frame is a Headers frame of stream [id] with the
    end-of-stream flag, and the frame was handled to the end (it went out
    and its header block decoded); for any other frame type, direction or
    outcome the two calls are not made. *)
Theorem persist_reset_trigger (i : nat) (frame : Frame) (s s' : State Decoder)
    (o : outcome unit) :
  dispatch DecodeFull w reqFromClient i frame s = (s', o) ->
  exists capture : list SicCall,
    Forall (fun c => is_lifecycle_call c = false) capture
    /\ calls (sic s') =
         (calls (sic s) ++ capture ++
           match closes_stream reqFromClient frame, o with
           | Some streamID, Next _ =>
               [PersistMockForStream streamID; ResetStream streamID]
           | _, _ => []
           end)%list.
Proof.
  intros Hd. unfold closes_stream.
  destruct frame; relay_unfold; relay_split Hd; cbn;
    repeat match goal with
      | |- context [match ?x with _ => _ end] => destruct x
      end;
    first
      [ exists []; split; [constructor|]; by rewrite ?app_nil_r
      | eexists [_]; split; [|rewrite <- ?app_assoc; reflexivity];
        by repeat constructor
      | eexists [_; _]; split; [|rewrite <- ?app_assoc; reflexivity];
        by repeat constructor
      | eexists [_; _; _; _]; split; [|rewrite <- ?app_assoc; reflexivity];
        by repeat constructor ].
Qed.

(** The two timestamps after one frame: a Data frame that went out sets the
    one of the loop's direction to the clock; nothing else touches them. *)
Lemma dispatch_timestamps (i : nat) (frame : Frame) (s s' : State Decoder)
    (o : outcome unit) :
  dispatch DecodeFull w reqFromClient i frame s = (s', o) ->
  timestamp_of reqFromClient (sic s') =
    (if is_data frame && is_next o then time_Now w i
     else timestamp_of reqFromClient (sic s))
  /\ timestamp_of (negb reqFromClient) (sic s') =
       timestamp_of (negb reqFromClient) (sic s).
Proof.
  intros Hd. unfold timestamp_of.
  destruct frame; relay_unfold; relay_split Hd; cbn; try done;
    by destruct reqFromClient.
Qed.

(** C10. A Data frame that goes out, whatever its stream identifier, sets
    the one timestamp field the collection has for the loop's direction to
    the current time, over whatever was there, and leaves the other
    direction's field alone; so after Data frames of two streams in a row
    the field holds the time of the second. *)
Theorem data_frame_stamps_collection (i : nat) (dataFrame : DataFrame) (s : State Decoder) :
  conn_Write w i = None ->
  dispatch DecodeFull w reqFromClient i (FData dataFrame) s =
    (mkState (decoder s)
       (mkStreamInfoCollection
          (if reqFromClient then time_Now w i else ReqTimestampMock (sic s))
          (if reqFromClient then ResTimestampMock (sic s) else time_Now w i)
          (calls (sic s) ++
             [if reqFromClient
              then AddPayloadForRequest (StreamID (df_FrameHeader dataFrame))
                                        (DataFrame_Data dataFrame)
              else AddPayloadForResponse (StreamID (df_FrameHeader dataFrame))
                                         (DataFrame_Data dataFrame)]))
       (lhs s ++ [WriteData (StreamID (df_FrameHeader dataFrame))
                            (DataFrame_StreamEnded dataFrame)
                            (DataFrame_Data dataFrame)]),
     Next tt)
  /\ (forall other : DataFrame,
        conn_Write w (S i) = None ->
        timestamp_of reqFromClient
          (sic (dispatch DecodeFull w reqFromClient (S i) (FData other)
                  (dispatch DecodeFull w reqFromClient i (FData dataFrame) s).1).1)
        = time_Now w (S i)).
Proof.
  intros Hw.
  assert (forall j f t, conn_Write w j = None ->
            exists t', dispatch DecodeFull w reqFromClient j (FData f) t = (t', Next tt))
    as Hnext.
  { intros j f t Hj. relay_unfold. rewrite Hj. destruct reqFromClient; eauto. }
  split.
  - relay_unfold. rewrite Hw. by destruct reqFromClient.
  - intros other Hw'.
    destruct (Hnext (S i) other
                (dispatch DecodeFull w reqFromClient i (FData dataFrame) s).1 Hw')
      as [t' Ht'].
    rewrite Ht'. cbn [fst].
    by destruct (dispatch_timestamps _ _ _ _ _ Ht') as [-> _].
Qed.

(** C5, as the code has it.  In a run that relays every frame of the source
    and ends on the peer closing, the timestamp of the loop's direction
    ends as the time of the last Data frame relayed, whatever its stream,
    and as it began when there was none; the other direction's timestamp
    is not touched. *)
Theorem timestamp_is_last_data_frame (frames : list Frame) (s s' : State Decoder)
    (rest : Source) :
  transferFrame DecodeFull w reqFromClient (map inl frames) s = (s', rest, io_EOF) ->
  timestamp_of reqFromClient (sic s') =
    default (timestamp_of reqFromClient (sic s)) (last_data_time w 0 frames)
  /\ timestamp_of (negb reqFromClient) (sic s') =
       timestamp_of (negb reqFromClient) (sic s).
Proof.
  unfold transferFrame. generalize 0%nat as i. revert s.
  induction frames as [|frame frames IH]; intros s i Hloop;
    cbn in Hloop; destruct (ctx_Done w i); try done.
  - (* the source is closed: nothing was stamped *)
    by injection Hloop as <- _.
  - destruct (dispatch DecodeFull w reqFromClient i frame s) as [s1 [[]|e]] eqn:Hd.
    + (* the frame was relayed; the rest of the run decides unless it has no
         Data frame *)
      destruct (IH _ _ Hloop) as [-> ->].
      destruct (dispatch_timestamps _ _ _ _ _ Hd) as [-> ->].
      split; [|done]. cbn [last_data_time].
      destruct (last_data_time w (S i) frames); [done|].
      by destruct (is_data frame).
    + (* an error of the switch is wrapped, never [io.EOF] *)
      injection Hloop as _ _ ->.
      by apply dispatch_error_wrapped in Hd.
Qed.

(** Frame fidelity on every forwarded type but GoAway: when the write goes
    out, it is one write whose frame has the fields of the frame read. *)
Lemma relay_faithful_but_goaway (i : nat) (frame : Frame) (s s' : State Decoder)
    (o : outcome unit) :
  readable frame = true ->
  plainly_forwarded frame = true ->
  conn_Write w i = None ->
  dispatch DecodeFull w reqFromClient i frame s = (s', o) ->
  exists c, lhs s' = (lhs s ++ [c])%list /\ fields (written_frame c) = fields frame.
Proof.
  intros Hread Hfwd Hw Hd.
  destruct frame as [f|f|f|f|f|f|f|f|f|f|f]; try discriminate Hfwd;
    cbn [readable] in Hread;
    relay_unfold; rewrite ?foreach_setting_collects, Hw in Hd; relay_split Hd;
    eexists; (split; [reflexivity|]);
    unfold fields, kept_flags; cbn [written_frame set_flags];
    unfold SettingsFrame_IsAck, HeadersFrame_StreamEnded, HeadersFrame_HeadersEnded,
      HeadersFrame_HeaderBlockFragment, DataFrame_StreamEnded, DataFrame_Data,
      PingFrame_IsAck, ContinuationFrame_HeadersEnded, PushPromiseFrame_HeadersEnded,
      ContinuationFrame_HeaderBlockFragment, PushPromiseFrame_HeaderBlockFragment in *;
    cbn;
    repeat match goal with
      | H : _ && _ = true |- _ => apply andb_true_iff in H as [? ?]
      | H : (_ =? _) = true |- _ => apply Z.eqb_eq in H; rewrite H
      | |- context [Has (Flags ?h) ?b] => destruct (Has (Flags h) b)
      | |- context [IsZero ?a] => destruct (IsZero a)
      | H : context [length ?l] |- _ => destruct l; cbn in H
      end;
    try discriminate; reflexivity.
Qed.

(** The GoAway arm: the stream identifier of the frame header, which is 0
    on every GoAway frame, is what [WriteGoAway] receives as the last-stream
    identifier. *)
Lemma goaway_write (i : nat) (goAwayFrame : GoAwayFrame) (s : State Decoder) :
  conn_Write w i = None ->
  dispatch DecodeFull w reqFromClient i (FGoAway goAwayFrame) s =
    (mkState (decoder s) (sic s)
       (lhs s ++ [WriteGoAway (StreamID (gf_FrameHeader goAwayFrame))
                              (gf_ErrCode goAwayFrame)
                              (GoAwayFrame_DebugData goAwayFrame)]),
     Next tt).
Proof. intros Hw. relay_unfold. by rewrite Hw. Qed.

(** So the last-stream identifier of a GoAway frame reaches the destination
    as 0, whatever the source announced. *)
Lemma goaway_last_stream_lost (goAwayFrame : GoAwayFrame) :
  readable (FGoAway goAwayFrame) = true ->
  gf_LastStreamID goAwayFrame <> 0 ->
  fields (written_frame (WriteGoAway (StreamID (gf_FrameHeader goAwayFrame))
                                     (gf_ErrCode goAwayFrame)
                                     (GoAwayFrame_DebugData goAwayFrame)))
  <> fields (FGoAway goAwayFrame).
Proof.
  intros Hread Hlast. cbn in Hread.
  apply andb_true_iff in Hread as [Hid _]. apply Z.eqb_eq in Hid.
  unfold fields. cbn. rewrite Hid. intros Heq. injection Heq as Heq.
  apply Hlast. by rewrite <- Heq.
Qed.

End RelayFacts.

(** ** The relay on sample runs *)

(** C3, on the GoAway arm.  A GoAway frame announcing last stream 7 is
    relayed towards the client: the relay calls [WriteGoAway] with the
    header's stream identifier 0 in the place of the last-stream identifier,
    so the frame on the destination announces last stream 0 and its fields
    differ from those of the frame read. *)
Theorem goaway_last_stream_id_not_relayed :
  let goAway := FGoAway (mkGoAwayFrame (mkFrameHeader 0 0) 7 0 []) in
  let run := transferFrame Sample.DecodeFull Sample.quiet false [inl goAway] Sample.init in
  readable goAway = true
  /\ lhs run.1.1 = [WriteGoAway 0 0 []]
  /\ run.2 = io_EOF
  /\ written_frame (WriteGoAway 0 0 []) =
       FGoAway (mkGoAwayFrame (mkFrameHeader 0 0) 0 0 [])
  /\ fields (written_frame (WriteGoAway 0 0 [])) <> fields goAway.
Proof. repeat split; try reflexivity. vm_compute. discriminate. Qed.

Lemma unknown_frame_dropped_witness :
  let unknown := mkUnknownFrame (mkFrameHeader 0 0) [x01; x02] in
  let rest : Source := [inl (Sample.data 1 true [x68; x69])] in
  dispatch Sample.DecodeFull Sample.quiet true 0 (FUnknown unknown) Sample.init
    = (Sample.init, Next tt)
  /\ relay_loop Sample.DecodeFull Sample.quiet true 0 (inl (FUnknown unknown) :: rest)
        Sample.init
     = relay_loop Sample.DecodeFull Sample.quiet true 1 rest Sample.init.
Proof.
  exact (unknown_frame_dropped _ Sample.DecodeFull Sample.quiet true 0 _ _ Sample.init
           eq_refl).
Defined.

Lemma read_error_returned_witness :
  let rest : Source := [inl (Sample.data 1 true [x68; x69])] in
  relay_loop Sample.DecodeFull Sample.quiet false 0 (inr (lib_error 7) :: rest) Sample.init
    = (Sample.init, rest, fmt_Errorf "error reading frame %v" (lib_error 7))
  /\ is_io_EOF (read_failed (lib_error 7)) = is_io_EOF (lib_error 7)
  /\ relay_loop Sample.DecodeFull Sample.quiet false 0 [] Sample.init
     = (Sample.init, [], io_EOF).
Proof.
  exact (read_error_returned _ Sample.DecodeFull Sample.quiet false 0 (lib_error 7) _
           Sample.init eq_refl).
Defined.

Lemma cancellation_returned_witness :
  let rhs : Source := [inl (Sample.data 1 true [x68; x69])] in
  relay_loop Sample.DecodeFull (Sample.cancelled_at 1) true 1 rhs Sample.init
    = (Sample.init, rhs, context_error Canceled)
  /\ is_io_EOF (context_error Canceled) = false
  /\ is_wrapped_error (context_error Canceled) = false
  /\ (forall (j : nat) (rhs' rest : Source) (s1 s2 : State (list HeaderField))
             (err : error),
        relay_loop Sample.DecodeFull (Sample.cancelled_at 1) true j rhs' s1
          = (s2, rest, err) ->
        is_context_error err = true ->
        exists k, (j <= k)%nat /\ ctx_Done (Sample.cancelled_at 1) k = true).
Proof.
  exact (cancellation_returned _ Sample.DecodeFull (Sample.cancelled_at 1) true 1 _
           Sample.init eq_refl).
Defined.

Lemma persist_reset_trigger_witness :
  let trailers := Sample.headers 1 true [xbe] in
  let r := dispatch Sample.DecodeFull Sample.quiet false 0 trailers Sample.init in
  exists capture : list SicCall,
    Forall (fun c => is_lifecycle_call c = false) capture
    /\ calls (sic r.1) =
         ([] ++ capture ++ [PersistMockForStream 1; ResetStream 1])%list.
Proof.
  intros trailers r.
  apply (persist_reset_trigger _ Sample.DecodeFull Sample.quiet false 0 trailers
           Sample.init r.1 r.2).
  vm_compute. reflexivity.
Defined.

Lemma data_frame_stamps_collection_witness :
  dispatch Sample.DecodeFull Sample.quiet true 0 (Sample.data 3 false [x68; x69]) Sample.init
    = (mkState Sample.table
         (mkStreamInfoCollection 10 0 [AddPayloadForRequest 3 [x68; x69]])
         [WriteData 3 false [x68; x69]],
       Next tt)
  /\ (forall other : DataFrame,
        conn_Write Sample.quiet 1 = None ->
        timestamp_of true
          (sic (dispatch Sample.DecodeFull Sample.quiet true 1 (FData other)
                  (dispatch Sample.DecodeFull Sample.quiet true 0
                     (Sample.data 3 false [x68; x69]) Sample.init).1).1)
        = 20).
Proof.
  exact (data_frame_stamps_collection _ Sample.DecodeFull Sample.quiet true 0
           (mkDataFrame (mkFrameHeader 0 3) [x68; x69]) Sample.init eq_refl).
Defined.

Lemma timestamp_is_last_data_frame_witness :
  let frames := [Sample.data 1 false [x68; x69]; Sample.data 3 true [x68; x6f]] in
  let run := transferFrame Sample.DecodeFull Sample.quiet true (map inl frames) Sample.init in
  run.2 = io_EOF
  /\ timestamp_of true (sic run.1.1) = 20
  /\ timestamp_of false (sic run.1.1) = 0.
Proof.
  intros frames run. split; [reflexivity|].
  apply (timestamp_is_last_data_frame _ Sample.DecodeFull Sample.quiet true frames
           Sample.init run.1.1 run.1.2).
  reflexivity.
Defined.

(** C5 as first-frame stamping fails: two Data frames of stream 1 are
    relayed at times 10 and 20, and the request timestamp ends as 20. *)
Lemma first_data_frame_stamp_refuted :
  ~ stamps_first_data_frame Sample.DecodeFull Sample.quiet true
      [Sample.data 1 false [x68; x69]; Sample.data 1 true [x68; x6f]] Sample.init.
Proof.
  intros Hfirst. specialize (Hfirst 1 10 eq_refl). vm_compute in Hfirst. discriminate.
Qed.

(** The scenario of one unary call, request side: the headers and the two
    Data frames of stream 1 are forwarded and captured, and the mock is not
    emitted by this loop. *)
Example request_side_scenario :
  let rhs : Source :=
    [inl (Sample.headers 1 false [x83; x84]);
     inl (Sample.data 1 false [x68; x65; x6c; x6c; x6f]);
     inl (Sample.data 1 true [x77; x6f; x72; x6c; x64])] in
  let run := transferFrame Sample.DecodeFull Sample.quiet true rhs Sample.init in
  run.2 = io_EOF
  /\ calls (sic run.1.1) =
       [AddHeadersForRequest 1 (Some {[ ":method" := "POST"; ":path" := "/" ]}) true;
        AddHeadersForRequest 1 (Some ∅) false;
        AddPayloadForRequest 1 [x68; x65; x6c; x6c; x6f];
        AddPayloadForRequest 1 [x77; x6f; x72; x6c; x64]]
  /\ ReqTimestampMock (sic run.1.1) = 30.
Proof. vm_compute. repeat split. Qed.

(** The same call, response side: the leading headers are captured as
    headers, the block that ends the stream is split so that [grpc-status]
    is captured as a trailer, and the mock is emitted and the stream reset
    once, after it. *)
Example response_side_scenario :
  let rhs : Source :=
    [inl (Sample.headers 1 false [x88]); inl (Sample.headers 1 true [xbe])] in
  let run := transferFrame Sample.DecodeFull Sample.quiet false rhs Sample.init in
  run.2 = io_EOF
  /\ calls (sic run.1.1) =
       [AddHeadersForResponse 1 (Some {[ ":status" := "200" ]}) true false;
        AddHeadersForResponse 1 (Some ∅) false false;
        AddHeadersForResponse 1 (Some ∅) true false;
        AddHeadersForResponse 1 (Some ∅) false false;
        AddHeadersForResponse 1 (Some ∅) true true;
        AddHeadersForResponse 1 (Some {[ "grpc-status" := "0" ]}) false true;
        PersistMockForStream 1;
        ResetStream 1].
Proof. vm_compute. repeat split. Qed.

(** A block the decoder refuses ends the loop with the wrapped error, after
    the frame went out, and no mock is emitted although the frame ends the
    stream. *)
Example undecodable_trailers_scenario :
  let rhs : Source := [inl (Sample.headers 1 true [x00])] in
  let run := transferFrame Sample.DecodeFull Sample.quiet false rhs Sample.init in
  run.2 = fmt_Errorf "could not extract headers from frame: %v"
            (fmt_Errorf "could not decode headers: %v" (lib_error 2))
  /\ length (lhs run.1.1) = 1%nat
  /\ calls (sic run.1.1) = [].
Proof. vm_compute. repeat split. Qed.

(** A write that fails ends the loop with the wrapped error: the frame does
    not go out, nothing is captured and no mock is emitted. *)
Example failed_write_scenario :
  let rhs : Source := [inl (Sample.headers 1 true [xbe]); inl (Sample.data 1 true [x68])] in
  let run :=
    transferFrame Sample.DecodeFull (Sample.write_fails_at 0) false rhs Sample.init in
  run = (Sample.init, [inl (Sample.data 1 true [x68])],
         fmt_Errorf "could not write headers frame: %v" (lib_error 3)).
Proof. reflexivity. Qed.

(** * Further properties of the relay *)

(** ** One turn of the loop *)

Section TurnFacts.

Variable Decoder : Type.
Variable DecodeFull : Decoder -> bytes -> Decoder * (list HeaderField + error).
Variable w : World.
Variable reqFromClient : bool.

(** A frame the [switch] knows and could not write changes nothing and ends
    the loop. *)
Lemma dispatch_unwritten (i : nat) (frame : Frame) (s s' : State Decoder)
    (o : outcome unit) (e : error) :
  is_known frame = true ->
  conn_Write w i = Some e ->
  dispatch DecodeFull w reqFromClient i frame s = (s', o) ->
  s' = s /\ is_next o = false.
Proof.
  intros Hknown Hw Hd.
  destruct frame; try discriminate Hknown;
    relay_unfold; rewrite ?foreach_setting_collects, Hw in Hd;
    relay_split Hd; done.
Qed.

(** A frame handled to the end went out, unless the [switch] drops it. *)
Lemma dispatch_next_written (i : nat) (frame : Frame) (s s' : State Decoder) :
  is_known frame = true ->
  dispatch DecodeFull w reqFromClient i frame s = (s', Next tt) ->
  conn_Write w i = None.
Proof.
  intros Hknown Hd. destruct (conn_Write w i) as [e|] eqn:Hw; [|done].
  by destruct (dispatch_unwritten _ _ _ _ _ _ Hknown Hw Hd).
Qed.

(** X1. When the write of a frame of a known type fails, the [switch]
    returns the library's error wrapped in a message of its own, and the
    state is as it was: nothing is captured, no timestamp is taken and the
    decoder has not moved. *)
Theorem write_failure_leaves_state (i : nat) (frame : Frame) (s : State Decoder)
    (e : error) :
  is_known frame = true ->
  conn_Write w i = Some e ->
  exists format : string,
    dispatch DecodeFull w reqFromClient i frame s = (s, Return (fmt_Errorf format e)).
Proof.
  intros Hknown Hw.
  destruct frame as [f|f|f|f|f|f|f|f|f|f|f]; try discriminate Hknown;
    relay_unfold; rewrite ?foreach_setting_collects;
    try destruct (SettingsFrame_IsAck f);
    rewrite Hw; eexists; reflexivity.
Qed.

(** X2. A Headers frame is written before its header block is decoded.
    When the write goes out and the decoder then refuses the block, the
    frame is on the destination, the decoder is where the failed decode left
    it, nothing has been captured, and the error is the decoder's, wrapped
    twice. *)
Theorem headers_forwarded_before_decode (i : nat) (headersFrame : HeadersFrame)
    (s : State Decoder) (d : Decoder) (err : error) :
  conn_Write w i = None ->
  DecodeFull (decoder s) (HeadersFrame_HeaderBlockFragment headersFrame) = (d, inr err) ->
  dispatch DecodeFull w reqFromClient i (FHeaders headersFrame) s =
    (mkState d (sic s)
       (lhs s ++ [WriteHeaders {|
          hp_StreamID := StreamID (hf_FrameHeader headersFrame);
          hp_BlockFragment := HeadersFrame_HeaderBlockFragment headersFrame;
          hp_EndStream := HeadersFrame_StreamEnded headersFrame;
          hp_EndHeaders := HeadersFrame_HeadersEnded headersFrame;
          hp_PadLength := 0;
          hp_Priority := hf_Priority headersFrame |}]),
     Return (fmt_Errorf "could not extract headers from frame: %v"
               (fmt_Errorf "could not decode headers: %v" err))).
Proof.
  intros Hw Hdec. relay_unfold. rewrite Hw. cbn. by rewrite Hdec.
Qed.

(** X3. Only a Headers frame moves the decoder: after any other frame,
    Continuation and PushPromise with their header block fragments
    included, the decoder is as it was; and a Headers frame that went out
    moves it by one [DecodeFull] of its fragment, whether the decode
    succeeds or not. *)
Theorem decoder_moved_by_headers_only (i : nat) (frame : Frame) (s s' : State Decoder)
    (o : outcome unit) :
  dispatch DecodeFull w reqFromClient i frame s = (s', o) ->
  decoder s' =
    match conn_Write w i with
    | None => decoder_after DecodeFull frame (decoder s)
    | Some _ => decoder s
    end.
Proof.
  intros Hd. unfold decoder_after.
  destruct frame; relay_unfold; rewrite ?foreach_setting_collects in Hd;
    relay_split Hd; cbn;
    try match goal with
      | H : DecodeFull _ _ = _ |- _ => cbn in H; by rewrite H
      end;
    try done; by destruct (conn_Write w i).
Qed.

(** X4. Only Headers and Data frames reach the collection: any other frame
    leaves its calls and both timestamps as they were. *)
Theorem store_touched_by_headers_and_data_only (i : nat) (frame : Frame)
    (s s' : State Decoder) (o : outcome unit) :
  is_headers frame = false ->
  is_data frame = false ->
  dispatch DecodeFull w reqFromClient i frame s = (s', o) ->
  sic s' = sic s.
Proof.
  intros Hh Hdata Hd.
  destruct frame; try discriminate Hh; try discriminate Hdata;
    relay_unfold; rewrite ?foreach_setting_collects in Hd; relay_split Hd; done.
Qed.

End TurnFacts.

(** ** Classification of decoded headers *)

(** A pseudo header name starts with a colon, so it never has the [grpc-]
    prefix. *)
Lemma pseudo_name_not_grpc (name : string) :
  pseudo_name name = true -> is_grpc_key name = false.
Proof.
  destruct name as [|c name]; [done|]. cbn.
  intros Hc. apply Ascii.eqb_eq in Hc. by subst c.
Qed.

(** The two maps of [splitGrpcTrailerHeaders], read key by key. *)
Lemma split_lookup (hdrs : gomap) (normal trailer : gmap string string) :
  splitGrpcTrailerHeaders hdrs = (Some normal, Some trailer) ->
  forall k,
    trailer !! k = (if is_grpc_key k then entries hdrs !! k else None)
    /\ normal !! k = (if is_grpc_key k then None else entries hdrs !! k).
Proof.
  unfold splitGrpcTrailerHeaders.
  destruct (split_loop (map_to_list (entries hdrs))) as [n t] eqn:Hloop.
  intros Heq. simplify_eq.
  by apply (split_loop_lookup (entries hdrs) (map_to_list (entries hdrs))).
Qed.

Lemma split_made (hdrs : gomap) :
  exists normal trailer : gmap string string,
    splitGrpcTrailerHeaders hdrs = (Some normal, Some trailer).
Proof.
  unfold splitGrpcTrailerHeaders.
  destruct (split_loop (map_to_list (entries hdrs))) as [n t]. eauto.
Qed.

(** A map none of whose keys has the prefix is all normal; a map all of
    whose keys have it is all trailer. *)
Lemma split_all_normal (m : gmap string string) :
  (forall k, is_Some (m !! k) -> is_grpc_key k = false) ->
  splitGrpcTrailerHeaders (Some m) = (Some m, Some ∅).
Proof.
  intros Hkeys. destruct (split_made (Some m)) as (n & t & Hnt).
  rewrite Hnt. pose proof (split_lookup _ _ _ Hnt) as Hk. cbn in Hk.
  do 2 f_equal; apply map_eq; intros k; destruct (Hk k) as [Ht Hn].
  - rewrite Hn. destruct (is_grpc_key k) eqn:Hg; [|done].
    destruct (m !! k) eqn:Hm; [|done].
    by rewrite Hkeys in Hg by (by rewrite Hm).
  - rewrite Ht, lookup_empty. destruct (is_grpc_key k) eqn:Hg; [|done].
    destruct (m !! k) eqn:Hm; [|done].
    by rewrite Hkeys in Hg by (by rewrite Hm).
Qed.

Lemma split_all_trailer (m : gmap string string) :
  (forall k, is_Some (m !! k) -> is_grpc_key k = true) ->
  splitGrpcTrailerHeaders (Some m) = (Some ∅, Some m).
Proof.
  intros Hkeys. destruct (split_made (Some m)) as (n & t & Hnt).
  rewrite Hnt. pose proof (split_lookup _ _ _ Hnt) as Hk. cbn in Hk.
  do 2 f_equal; apply map_eq; intros k; destruct (Hk k) as [Ht Hn].
  - rewrite Hn, lookup_empty. destruct (is_grpc_key k) eqn:Hg; [done|].
    destruct (m !! k) eqn:Hm; [|done].
    by rewrite Hkeys in Hg by (by rewrite Hm).
  - rewrite Ht. destruct (is_grpc_key k) eqn:Hg; [done|].
    destruct (m !! k) eqn:Hm; [|done].
    by rewrite Hkeys in Hg by (by rewrite Hm).
Qed.

(** X5. Splitting is stable: splitting the normal map again gives it back
    with an empty trailer map, and splitting the trailer map again gives it
    back with an empty normal map. *)
Theorem split_again (hdrs normal trailer : gomap) :
  splitGrpcTrailerHeaders hdrs = (normal, trailer) ->
  splitGrpcTrailerHeaders normal = (normal, Some ∅)
  /\ splitGrpcTrailerHeaders trailer = (Some ∅, trailer).
Proof.
  intros Hsplit.
  destruct (split_made hdrs) as (n & t & Hnt).
  rewrite Hnt in Hsplit. injection Hsplit as <- <-.
  pose proof (split_lookup _ _ _ Hnt) as Hk.
  split.
  - apply split_all_normal. intros k [v Hv]. destruct (Hk k) as [_ Hn].
    rewrite Hn in Hv. by destruct (is_grpc_key k).
  - apply split_all_trailer. intros k [v Hv]. destruct (Hk k) as [Ht _].
    rewrite Ht in Hv. by destruct (is_grpc_key k).
Qed.

Section CaptureFacts.

Variable Decoder : Type.
Variable DecodeFull : Decoder -> bytes -> Decoder * (list HeaderField + error).
Variable w : World.

(** X6. A response Headers frame that ends the stream, written and decoded:
    the pseudo headers all go to the headers of the stream, for a pseudo
    name never has the [grpc-] prefix, and the pseudo trailer map is always
    empty; the ordinary headers are split by the prefix; then the mock is
    emitted and the stream reset.  The six calls are made in this order. *)
Theorem trailers_block_captured (i : nat) (headersFrame : HeadersFrame)
    (s : State Decoder) (d : Decoder) (hf : list HeaderField)
    (pseudoHeaders ordinaryHeaders : gmap string string) :
  HeadersFrame_StreamEnded headersFrame = true ->
  conn_Write w i = None ->
  DecodeFull (decoder s) (HeadersFrame_HeaderBlockFragment headersFrame) = (d, inl hf) ->
  extract_loop hf = (pseudoHeaders, ordinaryHeaders) ->
  exists ordinaryNormal ordinaryTrailer : gmap string string,
    splitGrpcTrailerHeaders (Some ordinaryHeaders) =
      (Some ordinaryNormal, Some ordinaryTrailer)
    /\ splitGrpcTrailerHeaders (Some pseudoHeaders) = (Some pseudoHeaders, Some ∅)
    /\ let streamID := StreamID (hf_FrameHeader headersFrame) in
       (dispatch DecodeFull w false i (FHeaders headersFrame) s).2 = Next tt
       /\ sic (dispatch DecodeFull w false i (FHeaders headersFrame) s).1 =
            mkStreamInfoCollection (ReqTimestampMock (sic s)) (ResTimestampMock (sic s))
              (calls (sic s) ++
                 [AddHeadersForResponse streamID (Some pseudoHeaders) true false;
                  AddHeadersForResponse streamID (Some ordinaryNormal) false false;
                  AddHeadersForResponse streamID (Some ∅) true true;
                  AddHeadersForResponse streamID (Some ordinaryTrailer) false true;
                  PersistMockForStream streamID;
                  ResetStream streamID]).
Proof.
  intros Hend Hw Hdec Hloop.
  destruct (split_made (Some ordinaryHeaders)) as (on & ot & Hsplit).
  assert (splitGrpcTrailerHeaders (Some pseudoHeaders) = (Some pseudoHeaders, Some ∅))
    as Hpseudo.
  { apply split_all_normal. intros k [v Hv].
    destruct (extract_fold_lookup hf _ _ _ _ Hloop k) as [Hp _].
    rewrite Hp, lookup_empty in Hv.
    destruct (pseudo_name k) eqn:Hk; [|done]. by apply pseudo_name_not_grpc. }
  exists on, ot. split; [done|]. split; [done|].
  relay_unfold. rewrite Hw. cbn. rewrite Hdec, Hloop. cbn.
  rewrite Hend, Hpseudo, Hsplit. cbn.
  split; [done|]. by rewrite <- !app_assoc.
Qed.

(** X7. A request Headers frame, written and decoded, is captured by two
    calls, the pseudo map then the ordinary map, whether or not it ends the
    stream: the request side makes no trailer of anything and emits
    nothing. *)
Theorem request_headers_captured (i : nat) (headersFrame : HeadersFrame)
    (s : State Decoder) (d : Decoder) (hf : list HeaderField) :
  conn_Write w i = None ->
  DecodeFull (decoder s) (HeadersFrame_HeaderBlockFragment headersFrame) = (d, inl hf) ->
  let streamID := StreamID (hf_FrameHeader headersFrame) in
  (dispatch DecodeFull w true i (FHeaders headersFrame) s).2 = Next tt
  /\ sic (dispatch DecodeFull w true i (FHeaders headersFrame) s).1 =
       mkStreamInfoCollection (ReqTimestampMock (sic s)) (ResTimestampMock (sic s))
         (calls (sic s) ++
            [AddHeadersForRequest streamID (Some (extract_loop hf).1) true;
             AddHeadersForRequest streamID (Some (extract_loop hf).2) false]).
Proof.
  intros Hw Hdec. relay_unfold. rewrite Hw. cbn. rewrite Hdec.
  destruct (extract_loop hf) as [p o]. cbn. split; [done|]. by rewrite <- !app_assoc.
Qed.

End CaptureFacts.

(** ** Whole runs *)

Lemma fold_left_log {X : Type} (g : Frame -> list X) (frames : list Frame) :
  forall log : list X,
    fold_left (fun a frame => (a ++ g frame)%list) frames log
    = (log ++ flat_map g frames)%list.
Proof.
  induction frames as [|frame frames IH]; intros log; cbn.
  - by rewrite app_nil_r.
  - by rewrite IH, <- app_assoc.
Qed.

Section RunFacts.

Variable Decoder : Type.
Variable DecodeFull : Decoder -> bytes -> Decoder * (list HeaderField + error).
Variable w : World.
Variable reqFromClient : bool.

(** A relation every turn of the loop keeps is kept by every run, however
    the run ends. *)
Lemma relay_loop_preserves (R : State Decoder -> State Decoder -> Prop) :
  (forall s, R s s) ->
  (forall s1 s2 s3, R s1 s2 -> R s2 s3 -> R s1 s3) ->
  (forall i frame s s' o,
     dispatch DecodeFull w reqFromClient i frame s = (s', o) -> R s s') ->
  forall (rhs : Source) (i : nat) (s s' : State Decoder) (rest : Source) (err : error),
    relay_loop DecodeFull w reqFromClient i rhs s = (s', rest, err) -> R s s'.
Proof.
  intros Hrefl Htrans Hturn.
  induction rhs as [|[frame|e] rhs IH]; intros i s s' rest err Hloop;
    cbn in Hloop; destruct (ctx_Done w i);
    try (injection Hloop as <- _ _; apply Hrefl).
  destruct (dispatch DecodeFull w reqFromClient i frame s) as [s1 [[]|e]] eqn:Hd.
  - eapply Htrans; [by eapply Hturn|by eapply IH].
  - injection Hloop as <- _ _. by eapply Hturn.
Qed.

(** A quantity every turn either moves by the frame or, ending the loop,
    leaves alone: at the end of a run over [frames] it has been moved by a
    prefix of [frames], and by all of them when the run ends on [io.EOF]. *)
Lemma relay_loop_folds {A : Type} (measure : State Decoder -> A)
    (step : Frame -> A -> A) (Q : Frame -> Prop) :
  (forall i frame s s' o,
     Q frame ->
     dispatch DecodeFull w reqFromClient i frame s = (s', o) ->
     measure s' = step frame (measure s)
     \/ (is_next o = false /\ measure s' = measure s)) ->
  forall frames : list Frame,
    Forall Q frames ->
    forall (i : nat) (s s' : State Decoder) (rest : Source) (err : error),
      relay_loop DecodeFull w reqFromClient i (map inl frames) s = (s', rest, err) ->
      exists n : nat,
        measure s' = fold_left (fun a frame => step frame a) (take n frames) (measure s)
        /\ (err = io_EOF -> take n frames = frames).
Proof.
  intros Hturn frames HQ.
  induction HQ as [|frame frames Hframe HQ IH]; intros i s s' rest err Hloop;
    cbn in Hloop; destruct (ctx_Done w i).
  - injection Hloop as <- _ _. by exists 0%nat.
  - injection Hloop as <- _ _. by exists 0%nat.
  - injection Hloop as <- _ <-. by exists 0%nat.
  - destruct (dispatch DecodeFull w reqFromClient i frame s) as [s1 [[]|e]] eqn:Hd.
    + destruct (Hturn _ _ _ _ _ Hframe Hd) as [Hstep|[? _]]; [|done].
      destruct (IH _ _ _ _ _ Hloop) as (n & Hn & Heof).
      exists (S n). cbn. rewrite <- Hstep. split; [done|].
      intros Herr. by rewrite Heof.
    + injection Hloop as <- _ <-.
      assert (e <> io_EOF) as Hne.
      { intros ->. by apply dispatch_error_wrapped in Hd. }
      destruct (Hturn _ _ _ _ _ Hframe Hd) as [Hstep|[_ Hsame]].
      * exists 1%nat. cbn. by rewrite take_0.
      * by exists 0%nat.
Qed.

(** What one turn does to the decoder, to the calls that emit and clear,
    to the payload calls and to the writes. *)
Lemma dispatch_decoder_step (i : nat) (frame : Frame) (s s' : State Decoder)
    (o : outcome unit) :
  dispatch DecodeFull w reqFromClient i frame s = (s', o) ->
  decoder s' = decoder_after DecodeFull frame (decoder s)
  \/ (is_next o = false /\ decoder s' = decoder s).
Proof.
  intros Hd. unfold decoder_after.
  destruct frame; relay_unfold; rewrite ?foreach_setting_collects in Hd;
    relay_split Hd; cbn;
    try match goal with
      | H : DecodeFull _ _ = _ |- _ => cbn in H; rewrite H
      end;
    first [by left | by right].
Qed.

Lemma dispatch_lifecycle_step (i : nat) (frame : Frame) (s s' : State Decoder)
    (o : outcome unit) :
  dispatch DecodeFull w reqFromClient i frame s = (s', o) ->
  List.filter is_lifecycle_call (calls (sic s')) =
    (List.filter is_lifecycle_call (calls (sic s)) ++ lifecycle_of reqFromClient frame)%list
  \/ (is_next o = false
       /\ List.filter is_lifecycle_call (calls (sic s')) =
          List.filter is_lifecycle_call (calls (sic s))).
Proof.
  intros Hd. unfold lifecycle_of, closes_stream.
  destruct frame; relay_unfold; rewrite ?foreach_setting_collects in Hd;
    relay_split Hd; cbn; rewrite ?List.filter_app; cbn;
    rewrite <- ?app_assoc, ?app_nil_r; first [by left | by right].
Qed.

Lemma dispatch_payload_step (i : nat) (frame : Frame) (s s' : State Decoder)
    (o : outcome unit) :
  dispatch DecodeFull w reqFromClient i frame s = (s', o) ->
  List.filter is_payload_call (calls (sic s')) =
    (List.filter is_payload_call (calls (sic s)) ++ payload_of reqFromClient frame)%list
  \/ (is_next o = false
       /\ List.filter is_payload_call (calls (sic s')) =
          List.filter is_payload_call (calls (sic s))).
Proof.
  intros Hd. unfold payload_of.
  destruct frame; relay_unfold; rewrite ?foreach_setting_collects in Hd;
    relay_split Hd; cbn; rewrite ?List.filter_app; cbn;
    rewrite <- ?app_assoc, ?app_nil_r; first [by left | by right].
Qed.

Lemma dispatch_lhs_step (i : nat) (frame : Frame) (s s' : State Decoder)
    (o : outcome unit) :
  dispatch DecodeFull w reqFromClient i frame s = (s', o) ->
  lhs s' = lhs s \/ exists c, lhs s' = (lhs s ++ [c])%list.
Proof.
  intros Hd.
  destruct frame; relay_unfold; rewrite ?foreach_setting_collects in Hd;
    relay_split Hd; cbn; first [by left | right; by eexists].
Qed.

(** X8. Header blocks reach the decoder in arrival order, each once: at the
    end of a run the decoder is the starting decoder moved by [DecodeFull]
    over the fragments of a prefix of the Headers frames read, the frames of
    other types leaving it alone, and over all of them when the run ends on
    [io.EOF]. *)
Theorem run_decodes_in_order (frames : list Frame) (i : nat) (s s' : State Decoder)
    (rest : Source) (err : error) :
  relay_loop DecodeFull w reqFromClient i (map inl frames) s = (s', rest, err) ->
  exists n : nat,
    decoder s' =
      fold_left (fun d frame => decoder_after DecodeFull frame d) (take n frames)
        (decoder s)
    /\ (err = io_EOF -> take n frames = frames).
Proof.
  intros Hloop.
  apply (relay_loop_folds decoder (decoder_after DecodeFull) (fun _ => True))
    with (i := i) (rest := rest) (err := err); [|by apply Forall_true|done].
  intros j frame t t' o _ Hd. by eapply dispatch_decoder_step.
Qed.

(** X9. One mock per stream end, in order.  The [PersistMockForStream] and
    [ResetStream] calls a run adds are, for a prefix of the frames read, one
    pair per Headers frame that ends a stream on the response side, in
    arrival order, and nothing else; for all the frames when the run ends on
    [io.EOF]. *)
Theorem run_emits_once_per_stream_end (frames : list Frame) (i : nat)
    (s s' : State Decoder) (rest : Source) (err : error) :
  relay_loop DecodeFull w reqFromClient i (map inl frames) s = (s', rest, err) ->
  exists n : nat,
    List.filter is_lifecycle_call (calls (sic s')) =
      (List.filter is_lifecycle_call (calls (sic s))
       ++ flat_map (lifecycle_of reqFromClient) (take n frames))%list
    /\ (err = io_EOF -> take n frames = frames).
Proof.
  intros Hloop.
  destruct (relay_loop_folds
              (fun t => List.filter is_lifecycle_call (calls (sic t)))
              (fun frame a => (a ++ lifecycle_of reqFromClient frame)%list)
              (fun _ => True)) with (frames := frames) (i := i) (s := s) (s' := s')
              (rest := rest) (err := err) as (n & Hn & Heof);
    [|by apply Forall_true|done|].
  - intros j frame t t' o _ Hd. by eapply dispatch_lifecycle_step.
  - exists n. by rewrite Hn, fold_left_log.
Qed.

(** X10. Payloads are captured in arrival order, each Data frame once: the
    payload calls a run adds are those of a prefix of the Data frames read,
    with their stream identifiers and bytes, and of all of them when the run
    ends on [io.EOF]. *)
Theorem run_captures_payloads_in_order (frames : list Frame) (i : nat)
    (s s' : State Decoder) (rest : Source) (err : error) :
  relay_loop DecodeFull w reqFromClient i (map inl frames) s = (s', rest, err) ->
  exists n : nat,
    List.filter is_payload_call (calls (sic s')) =
      (List.filter is_payload_call (calls (sic s))
       ++ flat_map (payload_of reqFromClient) (take n frames))%list
    /\ (err = io_EOF -> take n frames = frames).
Proof.
  intros Hloop.
  destruct (relay_loop_folds
              (fun t => List.filter is_payload_call (calls (sic t)))
              (fun frame a => (a ++ payload_of reqFromClient frame)%list)
              (fun _ => True)) with (frames := frames) (i := i) (s := s) (s' := s')
              (rest := rest) (err := err) as (n & Hn & Heof);
    [|by apply Forall_true|done|].
  - intros j frame t t' o _ Hd. by eapply dispatch_payload_step.
  - exists n. by rewrite Hn, fold_left_log.
Qed.

(** X11. Order and content of the relayed frames.  Over a source of frames
    the parser can return, none of them a GoAway frame, what a run puts on
    the destination is, frame for frame and field for field, a prefix of
    the frames of known type it read, in the same order; all of them when
    the run ends on [io.EOF]. *)
Theorem run_forwards_in_order (frames : list Frame) (i : nat) (s s' : State Decoder)
    (rest : Source) (err : error) :
  Forall (fun frame => readable frame = true /\ is_goaway frame = false) frames ->
  relay_loop DecodeFull w reqFromClient i (map inl frames) s = (s', rest, err) ->
  exists n : nat,
    map (fun c => fields (written_frame c)) (lhs s') =
      (map (fun c => fields (written_frame c)) (lhs s)
       ++ flat_map forwarded_fields (take n frames))%list
    /\ (err = io_EOF -> take n frames = frames).
Proof.
  intros Hframes Hloop.
  destruct (relay_loop_folds
              (fun t => map (fun c => fields (written_frame c)) (lhs t))
              (fun frame a => (a ++ forwarded_fields frame)%list)
              (fun frame => readable frame = true /\ is_goaway frame = false))
    with (frames := frames) (i := i) (s := s) (s' := s') (rest := rest) (err := err)
    as (n & Hn & Heof); [|done|done|].
  - intros j frame t t' o [Hread Hgo] Hd. unfold forwarded_fields.
    destruct (is_known frame) eqn:Hknown.
    + destruct (conn_Write w j) as [e|] eqn:Hw.
      * right. by destruct (dispatch_unwritten _ _ _ _ _ _ _ _ _ _ Hknown Hw Hd) as [-> ?].
      * left.
        assert (plainly_forwarded frame = true) as Hfwd by by destruct frame.
        destruct (relay_faithful_but_goaway _ _ _ _ _ _ _ _ _ Hread Hfwd Hw Hd)
          as (c & -> & Hc).
        by rewrite map_app, <- Hc.
    + left. destruct frame; try discriminate Hknown.
      cbn in Hd. injection Hd as <- _. by rewrite app_nil_r.
  - exists n. by rewrite Hn, fold_left_log.
Qed.

(** X12. The loop touches the timestamp of its own direction only: whatever
    the source holds and however the run ends, the other direction's
    timestamp is as it was. *)
Theorem run_keeps_other_timestamp (rhs : Source) (i : nat) (s s' : State Decoder)
    (rest : Source) (err : error) :
  relay_loop DecodeFull w reqFromClient i rhs s = (s', rest, err) ->
  timestamp_of (negb reqFromClient) (sic s') = timestamp_of (negb reqFromClient) (sic s).
Proof.
  apply (relay_loop_preserves
           (fun t t' => timestamp_of (negb reqFromClient) (sic t')
                        = timestamp_of (negb reqFromClient) (sic t))).
  - done.
  - intros s1 s2 s3 H12 H23. by rewrite H23.
  - intros j frame t t' o Hd. by destruct (dispatch_timestamps _ _ _ _ _ _ _ _ _ Hd).
Qed.

(** X13. The loop never writes ahead of its reads, and never takes a write
    back: what is left unread is the end of the source, the writes it found
    on the destination are still there, first, and it added at most one
    write for each read it made. *)
Theorem run_writes_at_most_what_it_read (rhs : Source) :
  forall (i : nat) (s s' : State Decoder) (rest : Source) (err : error),
    relay_loop DecodeFull w reqFromClient i rhs s = (s', rest, err) ->
    exists (consumed : Source) (added : list WriteCall),
      rhs = (consumed ++ rest)%list
      /\ lhs s' = (lhs s ++ added)%list
      /\ (length added <= length consumed)%nat.
Proof.
  induction rhs as [|[frame|e] rhs IH]; intros i s s' rest err Hloop;
    cbn in Hloop; destruct (ctx_Done w i);
    try (injection Hloop as <- <- _; exists [], []; split; [done|];
         by rewrite app_nil_r).
  - destruct (dispatch DecodeFull w reqFromClient i frame s) as [s1 [[]|e]] eqn:Hd.
    + (* the frame was handled: one more read, at most one more write *)
      destruct (IH _ _ _ _ _ Hloop) as (consumed & added & -> & Hlhs & Hlen).
      exists (inl frame :: consumed).
      destruct (dispatch_lhs_step _ _ _ _ _ Hd) as [H1|[c H1]]; rewrite H1 in Hlhs.
      * exists added. split; [done|]. split; [done|]. cbn. lia.
      * exists (c :: added). rewrite <- app_assoc in Hlhs.
        split; [done|]. split; [done|]. cbn. lia.
    + (* the frame ended the loop *)
      injection Hloop as <- <- _. exists [inl frame].
      destruct (dispatch_lhs_step _ _ _ _ _ Hd) as [H1|[c H1]]; rewrite H1.
      * exists []. split; [done|]. rewrite app_nil_r. split; [done|]. cbn. lia.
      * exists [c]. done.
  - (* the read failed *)
    injection Hloop as <- <- _. exists [inr e], []. split; [done|].
    rewrite app_nil_r. split; [done|]. cbn. lia.
Qed.

(** One turn handled to the end writes once for a frame of a known type and
    not at all for a frame the [switch] drops. *)
Lemma dispatch_next_lhs (i : nat) (frame : Frame) (s s' : State Decoder)
    (o : outcome unit) :
  dispatch DecodeFull w reqFromClient i frame s = (s', o) ->
  is_next o = true ->
  length (lhs s') = (length (lhs s) + length (List.filter is_known [frame]))%nat.
Proof.
  intros Hd Ho.
  destruct frame; relay_unfold; rewrite ?foreach_setting_collects in Hd;
    relay_split Hd; try discriminate Ho; cbn; rewrite ?length_app; cbn; lia.
Qed.

(** X15. [io.EOF] is a clean end.  When a run returns [io.EOF], every read
    before the one that gave [io.EOF] returned a frame, each of these frames
    was handled to the end, and exactly one write went out for each of them
    that is of a known type; the context was not found done. *)
Theorem eof_after_all_relayed (rhs : Source) :
  forall (i : nat) (s s' : State Decoder) (rest : Source),
    relay_loop DecodeFull w reqFromClient i rhs s = (s', rest, io_EOF) ->
    exists frames : list Frame,
      (rhs = (map inl frames ++ inr io_EOF :: rest)%list
       \/ (rhs = map inl frames /\ rest = []))
      /\ length (lhs s') = (length (lhs s) + length (List.filter is_known frames))%nat
      /\ ctx_Done w (i + length frames) = false.
Proof.
  induction rhs as [|[frame|e] rhs IH]; intros i s s' rest Hloop;
    cbn in Hloop; destruct (ctx_Done w i) eqn:Hctx; try discriminate Hloop.
  - (* the source is closed *)
    simplify_eq. exists []. cbn.
    rewrite !Nat.add_0_r. by split; [right|].
  - destruct (dispatch DecodeFull w reqFromClient i frame s) as [s1 [[]|e]] eqn:Hd.
    + destruct (IH _ _ _ _ Hloop) as (frames & Hrhs & Hlen & Hdone).
      exists (frame :: frames). split; [|split].
      * destruct Hrhs as [->|[-> ->]]; [by left|by right].
      * pose proof (dispatch_next_lhs _ _ _ _ _ Hd eq_refl) as H1.
        rewrite Hlen, H1. cbn. destruct (is_known frame); cbn; lia.
      * cbn. by rewrite Nat.add_succ_r.
    + (* an error of the switch is never [io.EOF] *)
      simplify_eq. by apply dispatch_error_wrapped in Hd.
  - (* the read failed: with [io.EOF], as the loop returned it *)
    destruct e; try discriminate Hloop.
    simplify_eq. exists []. cbn.
    rewrite !Nat.add_0_r. by split; [left|].
Qed.

End RunFacts.

Section RequestRun.

Variable Decoder : Type.
Variable DecodeFull : Decoder -> bytes -> Decoder * (list HeaderField + error).
Variable w : World.

(** X14. The loop that relays the requests never emits a mock and never
    resets a stream: whatever the source holds, Headers frames with the
    end-of-stream flag included, and however the run ends, it adds no
    [PersistMockForStream] and no [ResetStream] call. *)
Theorem request_run_never_emits (rhs : Source) (i : nat) (s s' : State Decoder)
    (rest : Source) (err : error) :
  relay_loop DecodeFull w true i rhs s = (s', rest, err) ->
  List.filter is_lifecycle_call (calls (sic s')) =
    List.filter is_lifecycle_call (calls (sic s)).
Proof.
  apply (relay_loop_preserves _ DecodeFull w true
           (fun t t' => List.filter is_lifecycle_call (calls (sic t'))
                        = List.filter is_lifecycle_call (calls (sic t)))).
  - done.
  - intros s1 s2 s3 H12 H23. by rewrite H23.
  - intros j frame t t' o Hd.
    destruct (dispatch_lifecycle_step _ DecodeFull w true _ _ _ _ _ Hd) as [H|[_ H]];
      [|done].
    rewrite H. unfold lifecycle_of. destruct frame; cbn; by rewrite app_nil_r.
Qed.

End RequestRun.

(** ** The further properties on sample runs *)

Lemma write_failure_leaves_state_witness :
  exists format : string,
    dispatch Sample.DecodeFull (Sample.write_fails_at 0) true 0
      (Sample.data 1 true [x68; x69]) Sample.init
    = (Sample.init, Return (fmt_Errorf format (lib_error 3))).
Proof.
  apply (write_failure_leaves_state _ Sample.DecodeFull (Sample.write_fails_at 0) true 0
           (Sample.data 1 true [x68; x69]) Sample.init (lib_error 3));
    reflexivity.
Defined.

Lemma headers_forwarded_before_decode_witness :
  let headersFrame :=
    mkHeadersFrame (mkFrameHeader 5 1) (mkPriorityParam 0 false 0) [x00] in
  dispatch Counting.DecodeFull Sample.quiet false 0 (FHeaders headersFrame) Counting.init =
    (mkState 1%nat (mkStreamInfoCollection 0 0 [])
       [WriteHeaders (mkHeadersFrameParam 1 [x00] true true 0 (mkPriorityParam 0 false 0))],
     Return (fmt_Errorf "could not extract headers from frame: %v"
               (fmt_Errorf "could not decode headers: %v" (lib_error 2)))).
Proof.
  exact (headers_forwarded_before_decode _ Counting.DecodeFull Sample.quiet false 0
           (mkHeadersFrame (mkFrameHeader 5 1) (mkPriorityParam 0 false 0) [x00])
           Counting.init 1%nat (lib_error 2) eq_refl eq_refl).
Defined.

Lemma decoder_moved_by_headers_only_witness :
  let continuation := FContinuation (mkContinuationFrame (mkFrameHeader 4 1) [x88]) in
  decoder (dispatch Counting.DecodeFull Sample.quiet false 0 continuation Counting.init).1
  = 0%nat.
Proof.
  intros continuation.
  apply (decoder_moved_by_headers_only _ Counting.DecodeFull Sample.quiet false 0
           continuation Counting.init _
           (dispatch Counting.DecodeFull Sample.quiet false 0 continuation
              Counting.init).2).
  reflexivity.
Defined.

Lemma store_touched_by_headers_and_data_only_witness :
  let ping := FPing (mkPingFrame (mkFrameHeader 0 0) [x01; x02; x03; x04; x05; x06; x07; x08]) in
  sic (dispatch Sample.DecodeFull Sample.quiet true 0 ping Sample.init).1 = sic Sample.init.
Proof.
  intros ping.
  apply (store_touched_by_headers_and_data_only _ Sample.DecodeFull Sample.quiet true 0
           ping Sample.init _
           (dispatch Sample.DecodeFull Sample.quiet true 0 ping Sample.init).2);
    reflexivity.
Defined.

Lemma split_again_witness :
  let normal : gomap := Some {[ "content-type" := "application/grpc" ]} in
  let trailer : gomap := Some {[ "grpc-status" := "0" ]} in
  splitGrpcTrailerHeaders normal = (normal, Some ∅)
  /\ splitGrpcTrailerHeaders trailer = (Some ∅, trailer).
Proof.
  apply (split_again
           (Some {[ "content-type" := "application/grpc"; "grpc-status" := "0" ]})).
  vm_compute. reflexivity.
Defined.

Lemma trailers_block_captured_witness :
  let headersFrame :=
    mkHeadersFrame (mkFrameHeader 5 1) (mkPriorityParam 0 false 0) [x88; xbe; xbf] in
  exists ordinaryNormal ordinaryTrailer : gmap string string,
    splitGrpcTrailerHeaders (Some {[ "grpc-status" := "0"; "te" := "trailers" ]}) =
      (Some ordinaryNormal, Some ordinaryTrailer)
    /\ splitGrpcTrailerHeaders (Some {[ ":status" := "200" ]}) =
         (Some {[ ":status" := "200" ]}, Some ∅)
    /\ (dispatch Sample.DecodeFull Sample.quiet false 0 (FHeaders headersFrame)
          Sample.init).2 = Next tt
    /\ sic (dispatch Sample.DecodeFull Sample.quiet false 0 (FHeaders headersFrame)
              Sample.init).1 =
         mkStreamInfoCollection 0 0
           [AddHeadersForResponse 1 (Some {[ ":status" := "200" ]}) true false;
            AddHeadersForResponse 1 (Some ordinaryNormal) false false;
            AddHeadersForResponse 1 (Some ∅) true true;
            AddHeadersForResponse 1 (Some ordinaryTrailer) false true;
            PersistMockForStream 1;
            ResetStream 1].
Proof.
  intros headersFrame.
  apply (trailers_block_captured _ Sample.DecodeFull Sample.quiet 0 headersFrame
           Sample.init Sample.table
           [mkHeaderField ":status" "200" false; mkHeaderField "grpc-status" "0" false;
            mkHeaderField "te" "trailers" false]);
    vm_compute; reflexivity.
Defined.

Lemma request_headers_captured_witness :
  let headersFrame :=
    mkHeadersFrame (mkFrameHeader 5 1) (mkPriorityParam 0 false 0) [x83; x84] in
  let hf := [mkHeaderField ":method" "POST" false; mkHeaderField ":path" "/" false] in
  (dispatch Sample.DecodeFull Sample.quiet true 0 (FHeaders headersFrame) Sample.init).2
    = Next tt
  /\ sic (dispatch Sample.DecodeFull Sample.quiet true 0 (FHeaders headersFrame)
            Sample.init).1 =
       mkStreamInfoCollection 0 0
         [AddHeadersForRequest 1 (Some (extract_loop hf).1) true;
          AddHeadersForRequest 1 (Some (extract_loop hf).2) false].
Proof.
  intros headersFrame hf.
  apply (request_headers_captured _ Sample.DecodeFull Sample.quiet 0 headersFrame
           Sample.init Sample.table hf); reflexivity.
Defined.

Lemma run_decodes_in_order_witness :
  let frames :=
    [Sample.headers 1 false [x88];
     FContinuation (mkContinuationFrame (mkFrameHeader 4 1) [xbf]);
     Sample.data 1 false [x68; x69];
     Sample.headers 1 true [xbe]] in
  let run := relay_loop Counting.DecodeFull Sample.quiet false 0 (map inl frames)
               Counting.init in
  exists n : nat,
    decoder run.1.1 =
      fold_left (fun d frame => decoder_after Counting.DecodeFull frame d)
        (take n frames) 0%nat
    /\ (run.2 = io_EOF -> take n frames = frames).
Proof.
  intros frames run.
  apply (run_decodes_in_order _ Counting.DecodeFull Sample.quiet false frames 0
           Counting.init run.1.1 run.1.2 run.2).
  vm_compute. reflexivity.
Defined.

Lemma run_emits_once_per_stream_end_witness :
  let frames :=
    [Sample.headers 1 false [x88]; Sample.headers 1 true [xbe];
     Sample.headers 3 true [x88; xbe]] in
  let run := relay_loop Sample.DecodeFull Sample.quiet false 0 (map inl frames)
               Sample.init in
  exists n : nat,
    List.filter is_lifecycle_call (calls (sic run.1.1)) =
      ([] ++ flat_map (lifecycle_of false) (take n frames))%list
    /\ (run.2 = io_EOF -> take n frames = frames).
Proof.
  intros frames run.
  apply (run_emits_once_per_stream_end _ Sample.DecodeFull Sample.quiet false frames 0
           Sample.init run.1.1 run.1.2 run.2).
  vm_compute. reflexivity.
Defined.

Lemma run_captures_payloads_in_order_witness :
  let frames :=
    [Sample.headers 1 false [x83; x84]; Sample.data 1 false [x68; x65];
     Sample.data 3 false [x6c]; Sample.data 1 true [x6c; x6f]] in
  let run := relay_loop Sample.DecodeFull Sample.quiet true 0 (map inl frames)
               Sample.init in
  exists n : nat,
    List.filter is_payload_call (calls (sic run.1.1)) =
      ([] ++ flat_map (payload_of true) (take n frames))%list
    /\ (run.2 = io_EOF -> take n frames = frames).
Proof.
  intros frames run.
  apply (run_captures_payloads_in_order _ Sample.DecodeFull Sample.quiet true frames 0
           Sample.init run.1.1 run.1.2 run.2).
  vm_compute. reflexivity.
Defined.

Lemma run_forwards_in_order_witness :
  let frames :=
    [FSettings (mkSettingsFrame (mkFrameHeader 0 0) [mkSetting 3 100]);
     Sample.headers 1 false [x83; x84];
     FUnknown (mkUnknownFrame (mkFrameHeader 0 0) [x01]);
     Sample.data 1 true [x68; x69]] in
  let run := relay_loop Sample.DecodeFull (Sample.write_fails_at 3) true 0
               (map inl frames) Sample.init in
  exists n : nat,
    map (fun c => fields (written_frame c)) (lhs run.1.1) =
      ([] ++ flat_map forwarded_fields (take n frames))%list
    /\ (run.2 = io_EOF -> take n frames = frames).
Proof.
  intros frames run.
  apply (run_forwards_in_order _ Sample.DecodeFull (Sample.write_fails_at 3) true frames 0
           Sample.init run.1.1 run.1.2 run.2).
  - repeat (constructor; [split; reflexivity|]). constructor.
  - vm_compute. reflexivity.
Defined.

Lemma run_keeps_other_timestamp_witness :
  let rhs : Source :=
    [inl (Sample.data 1 false [x68]); inl (Sample.data 1 true [x69]);
     inr (lib_error 7)] in
  timestamp_of false
    (sic (relay_loop Sample.DecodeFull Sample.quiet true 0 rhs Sample.init).1.1)
  = timestamp_of false (sic Sample.init).
Proof.
  intros rhs.
  apply (run_keeps_other_timestamp _ Sample.DecodeFull Sample.quiet true rhs 0
           Sample.init _
           (relay_loop Sample.DecodeFull Sample.quiet true 0 rhs Sample.init).1.2
           (relay_loop Sample.DecodeFull Sample.quiet true 0 rhs Sample.init).2).
  vm_compute. reflexivity.
Defined.

Lemma run_writes_at_most_what_it_read_witness :
  let rhs : Source :=
    [inl (Sample.data 1 false [x68]);
     inl (FUnknown (mkUnknownFrame (mkFrameHeader 0 0) [x01]));
     inr (lib_error 7); inl (Sample.data 1 true [x69])] in
  let run := relay_loop Sample.DecodeFull Sample.quiet true 0 rhs Sample.init in
  exists (consumed : Source) (added : list WriteCall),
    rhs = (consumed ++ run.1.2)%list
    /\ lhs run.1.1 = (lhs Sample.init ++ added)%list
    /\ (length added <= length consumed)%nat.
Proof.
  intros rhs run.
  apply (run_writes_at_most_what_it_read _ Sample.DecodeFull Sample.quiet true rhs 0
           Sample.init run.1.1 run.1.2 run.2).
  vm_compute. reflexivity.
Defined.

Lemma eof_after_all_relayed_witness :
  let rhs : Source :=
    [inl (Sample.data 1 false [x68]);
     inl (FUnknown (mkUnknownFrame (mkFrameHeader 0 0) [x01]));
     inr io_EOF; inl (Sample.data 1 true [x69])] in
  let run := relay_loop Sample.DecodeFull Sample.quiet true 0 rhs Sample.init in
  exists frames : list Frame,
    (rhs = (map inl frames ++ inr io_EOF :: run.1.2)%list
     \/ (rhs = map inl frames /\ run.1.2 = []))
    /\ length (lhs run.1.1)
       = (length (lhs Sample.init) + length (List.filter is_known frames))%nat
    /\ ctx_Done Sample.quiet (0 + length frames) = false.
Proof.
  intros rhs run.
  apply (eof_after_all_relayed _ Sample.DecodeFull Sample.quiet true rhs 0
           Sample.init run.1.1 run.1.2).
  vm_compute. reflexivity.
Defined.

Lemma request_run_never_emits_witness :
  let rhs : Source :=
    [inl (Sample.headers 1 true [x83; x84]); inl (Sample.headers 3 true [x00])] in
  let run := relay_loop Sample.DecodeFull Sample.quiet true 0 rhs Sample.init in
  List.filter is_lifecycle_call (calls (sic run.1.1)) =
    List.filter is_lifecycle_call (calls (sic Sample.init)).
Proof.
  intros rhs run.
  apply (request_run_never_emits _ Sample.DecodeFull Sample.quiet rhs 0
           Sample.init run.1.1 run.1.2 run.2).
  vm_compute. reflexivity.
Defined.
